(** * OAuth broker: state veiling and the Authenticate / Callback exchange

    A shallow embedding of the Go package [controllers] of the
    service-provider-integration OAuth service:

    - [statestorage.go]: [VeilRealState], [UnveilState], [randStringBytes];
    - the common controller: [Authenticate], [Callback],
      [finishOAuthExchange], [syncTokenData], [checkIdentityHasAccess];
    - the static handlers: [CallbackErrorHandler].

    Go functions that touch the session, the random source, the response
    writer or a collaborator are written in a small state monad over
    [World]; a run-time panic is the [None] outcome.  Every call that
    leaves the process (cluster API, provider token endpoint, token
    storage, audit log) is appended to the world's trace, so that "is
    called", "is never called" and "is called with" are properties of
    the final trace. *)

From Stdlib Require Import String Ascii List Bool Arith ZArith Lia.
From stdpp Require Import base option list gmap strings.

Local Open Scope string_scope.

(** ** Errors *)

(** Go [error] values.  The three sentinels are the package-level
    variables of the source; [Errorf] is [fmt.Errorf("<msg>: %w", err)];
    [ExternalError] is an error produced by a collaborator. *)
Inductive error : Type :=
| noStateError
| randomStringGenerationError
| noActiveSessionError
| Errorf (msg : string) (cause : error)
| ExternalError (msg : string).

(** ** Requests and contexts *)

(** A [context.Context] as far as this package looks into it: the scs
    session that the session middleware loaded into it, and the bearer
    value that [WithAuthIntoContext] attaches. *)
Record Context : Type := mkContext {
  ctx_session : nat;
  ctx_auth : option string
}.

(** [url.Values]: a key maps to the list of its values. *)
Definition Values : Type := gmap string (list string).

(** [Values.Get]: the first value of the key, [""] when there is none. *)
Definition Values_Get (v : Values) (key : string) : string :=
  match v !! key with
  | Some (x :: _) => x
  | _ => ""
  end.

Record Request : Type := mkRequest {
  URL_Query : Values;
  PostForm : Values;
  req_Context : Context
}.

(** [Request.FormValue]: body parameters take precedence over the URL
    query ([Request.Form] lists the body values first). *)
Definition FormValue (r : Request) (key : string) : string :=
  match (default [] (PostForm r !! key) ++ default [] (URL_Query r !! key))%list with
  | x :: _ => x
  | [] => ""
  end.

(** ** HTTP responses *)

Definition StatusOK : nat := 200.
Definition StatusFound : nat := 302.
Definition StatusBadRequest : nat := 400.
Definition StatusUnauthorized : nat := 401.
Definition StatusInternalServerError : nat := 500.

(** The state of an [http.ResponseWriter]: the status line once it has
    been sent, the [Location] header and the body written so far. *)
Record Response : Type := mkResponse {
  resp_status : option nat;
  resp_location : option string;
  resp_body : string
}.

Definition emptyResponse : Response := mkResponse None None "".

(** ** Calls that leave the process *)

Record ResourceAttributes : Type := mkResourceAttributes {
  ra_Namespace : string;
  ra_Verb : string;
  ra_Group : string;
  ra_Version : string;
  ra_Resource : string
}.

Record SelfSubjectAccessReview : Type := mkReview {
  review_Spec : ResourceAttributes;
  review_Allowed : bool
}.

(** [oauth2.Token]; the expiry is kept as Unix seconds. *)
Record oauth2_Token : Type := mkOAuth2Token {
  o_AccessToken : string;
  o_TokenType : string;
  o_RefreshToken : string;
  o_Expiry : Z
}.

(** [v1beta1.Token], the form handed to the token storage. *)
Record Token : Type := mkToken {
  AccessToken : string;
  TokenType : string;
  RefreshToken : string;
  Expiry : Z
}.

(** The [SPIAccessToken] object, by its key. *)
Record SPIAccessToken : Type := mkSPIAccessToken {
  spi_Name : string;
  spi_Namespace : string
}.

Record Endpoint : Type := mkEndpoint {
  AuthURL : string;
  TokenURL : string
}.

Record oauth2_Config : Type := mkOAuth2Config {
  ClientID : string;
  ClientSecret : string;
  cfg_Endpoint : Endpoint;
  RedirectURL : string;
  cfg_Scopes : list string
}.

Inductive Event : Type :=
| EvCreateReview (ctx : Context) (review : SelfSubjectAccessReview)
| EvGetAccessToken (ctx : Context) (name namespace : string)
| EvExchange (cfg : oauth2_Config) (ctx : Context) (code scope : string)
| EvStore (ctx : Context) (obj : SPIAccessToken) (tok : Token)
| EvAudit (msg name namespace : string).

Definition is_Exchange (e : Event) : bool :=
  match e with EvExchange _ _ _ _ => true | _ => false end.

Definition is_CreateReview (e : Event) : bool :=
  match e with EvCreateReview _ _ => true | _ => false end.

(** ** The world *)

(** [sessions]: the scs session store, one string map per session;
    [rand_Reader]: the outcomes the secure random source will deliver,
    one per [rand.Int] call ([None]: the read fails);
    [trace]: the outgoing calls made so far, oldest first;
    [response]: the response writer of the request being served. *)
Record World : Type := mkWorld {
  sessions : gmap nat (gmap string string);
  rand_Reader : list (option nat);
  trace : list Event;
  response : Response
}.

Definition M (A : Type) : Type := World -> option (A * World).

Definition ret {A} (a : A) : M A := fun w => Some (a, w).

Definition bind {A B} (k : A -> M B) (m : M A) : M B :=
  fun w => match m w with
           | Some (a, w') => k a w'
           | None => None
           end.

Definition panic {A} : M A := fun _ => None.

#[global] Instance M_ret : MRet M := @ret.
#[global] Instance M_bind : MBind M := @bind.

Definition emit (e : Event) : M unit :=
  fun w => Some (tt, mkWorld (sessions w) (rand_Reader w) (trace w ++ [e])%list (response w)).

(** *** The scs session manager *)

Definition session_data (w : World) (ctx : Context) : gmap string string :=
  default ∅ (sessions w !! ctx_session ctx).

(** The world after [key] has been set to [val] in the session of [ctx]. *)
Definition put_session (ctx : Context) (key val : string) (w : World) : World :=
  mkWorld (<[ctx_session ctx := <[key := val]> (session_data w ctx)]> (sessions w))
          (rand_Reader w) (trace w) (response w).

(** [SessionManager.Put(ctx, key, val)]. *)
Definition sessionManager_Put (ctx : Context) (key val : string) : M unit :=
  fun w => Some (tt, put_session ctx key val w).

(** [SessionManager.GetString(ctx, key)]: the zero value [""] when the
    key is not in the session. *)
Definition sessionManager_GetString (ctx : Context) (key : string) : M string :=
  fun w => Some (default "" (session_data w ctx !! key), w).

(** *** crypto/rand *)

(** [rand.Int(rand.Reader, max)]: consume one outcome of the source and
    answer with a value below [max], or with an error.  An exhausted or
    failing source gives an error; an outcome that is not below [max] is
    no value the library hands out, and is a failed read as well. *)
Definition rand_Int (max : nat) : M (nat * option error) :=
  fun w => match rand_Reader w with
           | Some n :: rest =>
               if Nat.ltb n max
               then Some ((n, None), mkWorld (sessions w) rest (trace w) (response w))
               else Some ((0, Some (ExternalError "rand: value out of range")),
                          mkWorld (sessions w) rest (trace w) (response w))
           | None :: rest =>
               Some ((0, Some (ExternalError "rand: read failed")),
                     mkWorld (sessions w) rest (trace w) (response w))
           | [] => Some ((0, Some (ExternalError "rand: source exhausted")), w)
           end.

(** *** The response writer *)

Definition set_response (f : Response -> Response) : M unit :=
  fun w => Some (tt, mkWorld (sessions w) (rand_Reader w) (trace w) (f (response w))).

(** [ResponseWriter.WriteHeader]: only the first status is sent. *)
Definition WriteHeader (code : nat) : M unit :=
  set_response (fun r =>
    match resp_status r with
    | None => mkResponse (Some code) (resp_location r) (resp_body r)
    | Some _ => r
    end).

(** [ResponseWriter.Write]: sends [200] first when no status was sent. *)
Definition Write (data : string) : M unit :=
  set_response (fun r =>
    mkResponse (Some (default StatusOK (resp_status r))) (resp_location r)
               (resp_body r ++ data)).

(** ** statestorage.go *)

Definition letterBytes : string := "abcdefghijklmnopqrstuvwxyz1234567890".

(** The loop [for i := range b] of [randStringBytes], from index [i]
    with [todo] indices to go.  Indexing [letterBytes] out of range
    panics. *)
Fixpoint randStringBytes_loop (todo i : nat) (b : list ascii) : M (string * option error) :=
  match todo with
  | O => ret (string_of_list_ascii b, None)
  | S todo' =>
      '(n, err) ← rand_Int (String.length letterBytes);
      match err with
      | Some _ => ret ("", Some randomStringGenerationError)
      | None =>
          match String.get n letterBytes with
          | Some c => randStringBytes_loop todo' (S i) (<[i := c]> b)
          | None => panic
          end
      end
  end.

(** [b := make([]byte, n)], then the loop over its indices. *)
Definition randStringBytes (n : nat) : M (string * option error) :=
  randStringBytes_loop n 0 (replicate n Ascii.zero).

(** [StateStorage.VeilRealState]: the session manager of the receiver is
    the session store of the world. *)
Definition VeilRealState (req : Request) : M (string * option error) :=
  let state := Values_Get (URL_Query req) "state" in
  if String.eqb state "" then ret ("", Some noStateError)
  else
    '(newState, err) ← randStringBytes 32;
    match err with
    | Some e => ret ("", Some e)
    | None =>
        sessionManager_Put (req_Context req) newState state;;
        ret (newState, None)
    end.

(** [StateStorage.UnveilState]: the session is the one of [ctx], the
    key comes from [req]. *)
Definition UnveilState (ctx : Context) (req : Request) : M (string * option error) :=
  let state := Values_Get (URL_Query req) "state" in
  if String.eqb state "" then ret ("", Some noStateError)
  else
    unveiledState ← sessionManager_GetString ctx state;
    ret (unveiledState, None).

(** *** Vocabulary for the properties of the veil *)

(** The letter that a draw selects. *)
Definition letter_of (d : nat) : option ascii := String.get d letterBytes.

(** [cs] is the spelling of [draws]: position by position, the letter
    selected by the draw. *)
Definition spells (draws : list nat) (cs : list ascii) : Prop :=
  Forall2 (fun d c => letter_of d = Some c) draws cs.

Definition in_alphabet (c : ascii) : Prop :=
  c ∈ list_ascii_of_string letterBytes.

(** The world after the source has handed out its first outcomes. *)
Definition with_rand (w : World) (rest : list (option nat)) : World :=
  mkWorld (sessions w) rest (trace w) (response w).

(** The outgoing calls made between two worlds of one run. *)
Definition trace_since (w w' : World) : list Event :=
  drop (length (trace w)) (trace w').

(** The world a run ends in (the starting world if it panics). *)
Definition final {A} (m : M A) (w : World) : World :=
  match m w with
  | Some (_, w') => w'
  | None => w
  end.

(** The source fails at its next read. *)
Definition source_fails (rest : list (option nat)) : Prop :=
  rest = [] \/ exists rest', rest = None :: rest'.

(** ** The common controller *)

(** [oauthstate.AnonymousOAuthState]: the fields this package reads. *)
Record AnonymousOAuthState : Type := mkAnonymousOAuthState {
  TokenName : string;
  TokenNamespace : string;
  ServiceProviderType : string;
  Scopes : list string
}.

Record exchangeState : Type := mkExchangeState {
  exchange_AnonymousOAuthState : AnonymousOAuthState
}.

Inductive oauthFinishResult : Type :=
| oauthFinishAuthenticated
| oauthFinishK8sAuthRequired
| oauthFinishError.

Definition oauthFinishResult_eqb (a b : oauthFinishResult) : bool :=
  match a, b with
  | oauthFinishAuthenticated, oauthFinishAuthenticated => true
  | oauthFinishK8sAuthRequired, oauthFinishK8sAuthRequired => true
  | oauthFinishError, oauthFinishError => true
  | _, _ => false
  end.

(** [token] is a pointer in the source: [None] is [nil]. *)
Record exchangeResult : Type := mkExchangeResult {
  result_exchangeState : exchangeState;
  result : oauthFinishResult;
  token : option oauth2_Token;
  authorizationHeader : string
}.

Definition zero_AnonymousOAuthState : AnonymousOAuthState :=
  mkAnonymousOAuthState "" "" "" [].

Definition zero_exchangeState : exchangeState :=
  mkExchangeState zero_AnonymousOAuthState.

(** The composite literal [exchangeResult{result: r}]. *)
Definition exchangeResult_of (r : oauthFinishResult) : exchangeResult :=
  mkExchangeResult zero_exchangeState r None "".

(** The state codec of package [oauthstate]. *)
Record Codec : Type := mkCodec {
  ParseAnonymous : string -> AnonymousOAuthState * option error;
  ParseInto : string -> exchangeState -> exchangeState * option error
}.

(** The [AuthenticatingClient] interface: what the cluster answers to a
    [Create] of a review and to a [Get] of an [SPIAccessToken]. *)
Record AuthenticatingClient : Type := mkAuthenticatingClient {
  client_Create : Context -> SelfSubjectAccessReview -> SelfSubjectAccessReview * option error;
  client_Get : Context -> string -> string -> SPIAccessToken * option error
}.

Record TokenStorage : Type := mkTokenStorage {
  storage_Store : Context -> SPIAccessToken -> Token -> option error
}.

Record Authenticator : Type := mkAuthenticator {
  GetToken : Request -> string * option error
}.

Record ServiceProviderConfiguration : Type := mkServiceProviderConfiguration {
  ClientId : string;
  config_ClientSecret : string;
  config_ServiceProviderType : string
}.

(** [RedirectTemplate] is the page template as a function of the [Url]
    field: the output it writes and the error of [Execute]. *)
Record commonController : Type := mkCommonController {
  Config : ServiceProviderConfiguration;
  JwtSigningSecret : string;
  K8sClient : AuthenticatingClient;
  controller_TokenStorage : TokenStorage;
  controller_Endpoint : Endpoint;
  BaseUrl : string;
  RedirectTemplate : string -> string * option error;
  controller_Authenticator : Authenticator
}.

(** [error.Error()]. *)
Fixpoint error_Error (e : error) : string :=
  match e with
  | noStateError => "request has no `state` parameter"
  | randomStringGenerationError => "not able to generate new random string"
  | noActiveSessionError => "no active oauth session found"
  | Errorf msg cause => msg ++ ": " ++ error_Error cause
  | ExternalError msg => msg
  end.

(** Modelled from the spec: [WithAuthIntoContext] is not among the
    sources; it attaches the bearer token to the context as the acting
    identity of the cluster calls made under that context. *)
Definition WithAuthIntoContext (token : string) (ctx : Context) : Context :=
  mkContext (ctx_session ctx) (Some token).

(** Modelled from the spec: [LogErrorAndWriteResponse] is not among the
    sources; it logs the cause server-side and answers with the given
    status code and message. *)
Definition LogErrorAndWriteResponse (ctx : Context) (status : nat) (msg : string)
    (err : option error) : M unit :=
  WriteHeader status;; Write msg.

(** Modelled from the spec: [LogDebugAndWriteResponse] is not among the
    sources; it answers with the given status code and message. *)
Definition LogDebugAndWriteResponse (ctx : Context) (status : nat) (msg : string) : M unit :=
  WriteHeader status;; Write msg.

(** Modelled from the spec: [AuditLogWithTokenInfo] is not among the
    sources; it adds one entry to the audit log. *)
Definition AuditLogWithTokenInfo (ctx : Context) (msg namespace name : string) : M unit :=
  emit (EvAudit msg name namespace).

(** [Template.Execute(w, data)]: the output goes to the writer, the
    error comes back. *)
Definition template_Execute (out : string * option error) : M (option error) :=
  (if String.eqb out.1 "" then ret tt else Write out.1);;
  ret out.2.

(** [strings.TrimSuffix(s, "/")]. *)
Fixpoint TrimSuffix_slash (s : string) : string :=
  match s with
  | EmptyString => EmptyString
  | String c EmptyString => if Ascii.eqb c "/" then EmptyString else s
  | String c rest => String c (TrimSuffix_slash rest)
  end.

(** ** The data of the upload handler *)

Definition StatusNoContent : nat := 204.

(** A request as [HandleUpload] reads it: the request itself, the route
    variables that the router matched ([mux.Vars]) and the body. *)
Record UploadRequest : Type := mkUploadRequest {
  up_Request : Request;
  mux_Vars : gmap string string;
  Body : string
}.

(** The [TokenUploader] interface. *)
Record TokenUploader : Type := mkTokenUploader {
  Upload : Context -> string -> string -> Token -> option error
}.

(** One call of [TokenUploader.Upload], with its arguments. *)
Record UploadCall : Type := mkUploadCall {
  call_ctx : Context;
  call_name : string;
  call_namespace : string;
  call_data : Token
}.

(** The world of the upload handler: the world of the response writer
    and the calls made to the uploader, oldest first. *)
Record UploadWorld : Type := mkUploadWorld {
  up_world : World;
  up_calls : list UploadCall
}.

(** Run an action on the response writer. *)
Definition respond (m : M unit) (u : UploadWorld) : option UploadWorld :=
  match m (up_world u) with
  | Some (_, w') => Some (mkUploadWorld w' (up_calls u))
  | None => None
  end.

(** [viewData] of the static handlers: the parameters of the
    [callback_error.html] template. *)
Record viewData : Type := mkViewData {
  Title : string;
  Message : string
}.

(** ** Test doubles

    A fixed cast of collaborators, used to run the handlers on concrete
    requests. *)
Module Doubles.

Definition tok1_state : AnonymousOAuthState :=
  mkAnonymousOAuthState "tok1" "ns1" "github" ["repo"].

(** Accepts the single state string ["signed.tok1.state"]. *)
Definition codec : Codec :=
  mkCodec
    (fun s => if String.eqb s "signed.tok1.state" then (tok1_state, None)
              else (zero_AnonymousOAuthState, Some (ExternalError "malformed state")))
    (fun s dest => if String.eqb s "signed.tok1.state" then (mkExchangeState tok1_state, None)
                   else (dest, Some (ExternalError "malformed state"))).

Definition NewCodec (secret : string) : Codec * option error := (codec, None).

Definition AuthCodeURL (cfg : oauth2_Config) (state : string) : string :=
  AuthURL (cfg_Endpoint cfg) ++ "?state=" ++ state.

Definition provider_token : oauth2_Token :=
  mkOAuth2Token "access-1" "bearer" "refresh-1" 1700000000.

Definition provider_Exchange (cfg : oauth2_Config) (ctx : Context) (code scope : string)
    : option oauth2_Token * option error :=
  if String.eqb code "good-code" then (Some provider_token, None)
  else (None, Some (ExternalError "invalid_grant")).

Definition strings_ToLower (s : string) : string := s.

Definition GroupVersion : string * string := ("appstudio.redhat.com", "v1beta1").

(** [http.Redirect] for the requests used here, which are GET requests
    with absolute targets in plain ASCII and without markup characters:
    the target is the [Location] as it is, and the body is the note
    with the link, followed by the line break of [Fprintln]. *)
Definition redirect_Location (r : Request) (url : string) : string := url.

Definition redirect_body (r : Request) (url : string) (code : nat) : string :=
  "<a href=" ++ String (ascii_of_nat 34) url ++ String (ascii_of_nat 34) ">Found</a>." ++
  String (ascii_of_nat 10) (String (ascii_of_nat 10) "").

(** The cluster allows exactly the identity ["alice"]. *)
Definition client : AuthenticatingClient :=
  mkAuthenticatingClient
    (fun ctx review =>
       (mkReview (review_Spec review)
                 (bool_decide (ctx_auth ctx = Some "alice")), None))
    (fun ctx name namespace => (mkSPIAccessToken name namespace, None)).

Definition storage : TokenStorage := mkTokenStorage (fun _ _ _ => None).

(** The bearer token is the [k8s_token] query parameter. *)
Definition authenticator : Authenticator :=
  mkAuthenticator
    (fun r => let t := Values_Get (URL_Query r) "k8s_token" in
              if String.eqb t "" then ("", Some (ExternalError "no bearer token"))
              else (t, None)).

Definition controller : commonController :=
  mkCommonController
    (mkServiceProviderConfiguration "client-id" "client-secret" "github")
    "jwt-secret" client storage
    (mkEndpoint "https://provider/authorize" "https://provider/token")
    "https://spi/" (fun url => ("<a href=" ++ url ++ ">", None)) authenticator.

(** The escaping that html/template applies to a value placed in HTML
    text: ampersand, angle brackets, plus sign and both quote characters
    are replaced by their entities, every other character of the values
    used here is kept. *)
Fixpoint htmlEscaper (s : string) : string :=
  match s with
  | EmptyString => ""
  | String ch s' =>
      (if Ascii.eqb ch "&" then "&amp;"
       else if Ascii.eqb ch "<" then "&lt;"
       else if Ascii.eqb ch ">" then "&gt;"
       else if Ascii.eqb ch "+" then "&#43;"
       else if Ascii.eqb ch "'" then "&#39;"
       else if Ascii.eqb ch (ascii_of_nat 34) then "&#34;"
       else String ch "") ++ htmlEscaper s'
  end.

(** A page that shows both fields in HTML text, escaped the way
    html/template does. *)
Definition error_page (d : viewData) : string * option error :=
  ("<h1>" ++ htmlEscaper (Title d) ++ "</h1><p>" ++ htmlEscaper (Message d) ++ "</p>",
   None).

(** A page whose execution fails before anything is written. *)
Definition broken_page (d : viewData) : string * option error :=
  ("", Some (ExternalError "template: execution failed")).

Definition query (kvs : list (string * string)) : Values :=
  list_to_map ((fun kv => (kv.1, [kv.2])) <$> kvs).

Definition ctx0 : Context := mkContext 7 None.

Definition request (kvs : list (string * string)) : Request :=
  mkRequest (query kvs) ∅ ctx0.

Definition world (draws : list (option nat)) : World :=
  mkWorld ∅ draws [] emptyResponse.

Definition world_with (key val : string) : World :=
  mkWorld {[ 7 := {[ key := val ]} ]} [] [] emptyResponse.

Definition a32 : string := "aaaaaaaaaaaaaaaaaaaaaaaaaaaaaaaa".

(** 32 answered draws, spelling ["abcdefghijklmnopqrstuvwxyz123456"]. *)
Definition draws32 : list nat := seq 0 32.

(** 32 answered draws from the top of the range, spelling
    ["0987654321zyxwvutsrqponmlkjihgfe"]. *)
Definition draws_down : list nat := rev (seq 4 32).

Definition veil_request : Request :=
  request [("state", "signed.tok1.state"); ("k8s_token", "alice")].

Definition callback_request (veiled : string) : Request :=
  request [("state", veiled); ("code", "good-code"); ("k8s_token", "alice")].

(** The same callback without a bearer token. *)
Definition anonymous_callback_request (veiled : string) : Request :=
  request [("state", veiled); ("code", "good-code")].

Definition error_request : Request :=
  request [("error", "access_denied"); ("error_description", "<b>denied</b>")].

(** A controller whose base URL has no trailing slash. *)
Definition bare_controller : commonController :=
  mkCommonController
    (mkServiceProviderConfiguration "client-id" "client-secret" "github")
    "jwt-secret" client storage
    (mkEndpoint "https://provider/authorize" "https://provider/token")
    "https://spi" (fun url => ("<a href=" ++ url ++ ">", None)) authenticator.

(** The exchange result of a callback that went through. *)
Definition exchanged : exchangeResult :=
  mkExchangeResult (mkExchangeState tok1_state) oauthFinishAuthenticated
                   (Some provider_token) "alice".

(** A provider token without expiry: the zero time in Unix seconds. *)
Definition token_without_expiry : oauth2_Token :=
  mkOAuth2Token "access-2" "bearer" "" (-62135596800).

(** The authorization of an upload is the [k8s_token] query parameter. *)
Definition WithAuthFromRequestIntoContext (r : Request) (ctx : Context)
    : Context * option error :=
  let t := Values_Get (URL_Query r) "k8s_token" in
  if String.eqb t "" then (ctx, Some (ExternalError "no authorization"))
  else (mkContext (ctx_session ctx) (Some t), None).

(** A decoder that takes the whole body as the access token and
    rejects the body ["{"]. *)
Definition json_Decode (body : string) (data : Token) : Token * option error :=
  if String.eqb body "{" then (data, Some (ExternalError "unexpected end of JSON input"))
  else (mkToken body (TokenType data) (RefreshToken data) (Expiry data), None).

(** An uploader that refuses the namespace ["locked"]. *)
Definition uploader : TokenUploader :=
  mkTokenUploader
    (fun ctx name namespace data =>
       if String.eqb namespace "locked" then Some (ExternalError "forbidden") else None).

Definition upload_request (namespace body : string) : UploadRequest :=
  mkUploadRequest (request [("k8s_token", "alice")])
                  {[ "name" := "tok1"; "namespace" := namespace ]} body.

Definition upload_world : UploadWorld := mkUploadWorld (world []) [].

End Doubles.

Section Controller.

(** Package-level functions of the linked libraries. *)

(** [oauthstate.NewCodec(secret)]. *)
Variable NewCodec : string -> Codec * option error.
(** [oauth2.Config.AuthCodeURL(state)]. *)
Variable AuthCodeURL : oauth2_Config -> string -> string.
(** What the provider's token endpoint answers to
    [oauth2.Config.Exchange(ctx, code, scopeOption)]. *)
Variable provider_Exchange :
  oauth2_Config -> Context -> string -> string -> option oauth2_Token * option error.
(** [strings.ToLower]. *)
Variable strings_ToLower : string -> string.
(** [v1beta1.GroupVersion]: group and version. *)
Variable GroupVersion : string * string.
(** What [http.Redirect(w, r, url, code)] makes of its target.  The
    [Location] header: a target with a scheme or a host is kept, any
    other is made absolute against the path of the request and cleaned;
    bytes outside ASCII are escaped.  The body: a short HTML note with
    a link to the target for a GET request, nothing otherwise. *)
Variable redirect_Location : Request -> string -> string.
Variable redirect_body : Request -> string -> nat -> string.

(** [http.Redirect(w, r, url, code)]: the [Location] header, the status
    line, the body. *)
Definition http_Redirect (r : Request) (url : string) (code : nat) : M unit :=
  set_response (fun rs =>
    mkResponse (resp_status rs) (Some (redirect_Location r url)) (resp_body rs));;
  WriteHeader code;;
  let body := redirect_body r url code in
  if String.eqb body "" then ret tt else Write body.

Definition redirectUrl (c : commonController) : string :=
  TrimSuffix_slash (BaseUrl c) ++ "/" ++
  strings_ToLower (config_ServiceProviderType (Config c)) ++ "/callback".

Definition newOAuth2Config (c : commonController) : oauth2_Config :=
  mkOAuth2Config (ClientId (Config c)) (config_ClientSecret (Config c))
                 (mkEndpoint "" "") (redirectUrl c) [].

(** [K8sClient.Create(ctx, &review)]: the call is recorded with the
    context it is made under. *)
Definition K8sClient_Create (c : commonController) (ctx : Context)
    (review : SelfSubjectAccessReview) : M (SelfSubjectAccessReview * option error) :=
  emit (EvCreateReview ctx review);;
  ret (client_Create (K8sClient c) ctx review).

Definition K8sClient_Get (c : commonController) (ctx : Context)
    (name namespace : string) : M (SPIAccessToken * option error) :=
  emit (EvGetAccessToken ctx name namespace);;
  ret (client_Get (K8sClient c) ctx name namespace).

Definition TokenStorage_Store (c : commonController) (ctx : Context)
    (obj : SPIAccessToken) (tok : Token) : M (option error) :=
  emit (EvStore ctx obj tok);;
  ret (storage_Store (controller_TokenStorage c) ctx obj tok).

Definition oauthCfg_Exchange (cfg : oauth2_Config) (ctx : Context)
    (code scope : string) : M (option oauth2_Token * option error) :=
  emit (EvExchange cfg ctx code scope);;
  ret (provider_Exchange cfg ctx code scope).

Definition checkIdentityHasAccess (c : commonController) (token : string)
    (req : Request) (state : AnonymousOAuthState) : M (bool * option error) :=
  let review :=
    mkReview (mkResourceAttributes (TokenNamespace state) "create"
                GroupVersion.1 GroupVersion.2 "spiaccesstokendataupdates")
             false in
  let ctx := WithAuthIntoContext token (req_Context req) in
  '(review, err) ← K8sClient_Create c ctx review;
  match err with
  | Some e => ret (false, Some (Errorf "failed to create SelfSubjectAccessReview" e))
  | None => ret (review_Allowed review, None)
  end.

Definition Authenticate (c : commonController) (r : Request) : M unit :=
  let stateString := FormValue r "state" in
  let '(codec, err) := NewCodec (JwtSigningSecret c) in
  match err with
  | Some e =>
      LogErrorAndWriteResponse (req_Context r) StatusInternalServerError
        "failed to instantiate OAuth stateString codec" (Some e)
  | None =>
  let '(state, err) := ParseAnonymous codec stateString in
  match err with
  | Some e =>
      LogErrorAndWriteResponse (req_Context r) StatusBadRequest
        "failed to decode the OAuth state" (Some e)
  | None =>
  let '(token, err) := GetToken (controller_Authenticator c) r in
  match err with
  | Some e =>
      LogErrorAndWriteResponse (req_Context r) StatusUnauthorized
        "No active session was found. Please use `/login` method to authorize your request and try again. Or provide the token as a `k8s_token` query parameter."
        (Some e)
  | None =>
  '(hasAccess, err) ← checkIdentityHasAccess c token r state;
  match err with
  | Some e =>
      LogErrorAndWriteResponse (req_Context r) StatusInternalServerError
        "failed to determine if the authenticated user has access" (Some e)
  | None =>
  if negb hasAccess then
    LogDebugAndWriteResponse (req_Context r) StatusUnauthorized
      "authenticating the request in Kubernetes unsuccessful"
  else
  AuditLogWithTokenInfo (req_Context r) "OAuth authentication flow started"
    (TokenNamespace state) (TokenName state);;
  '(newStateString, err) ← VeilRealState r;
  match err with
  | Some e =>
      LogErrorAndWriteResponse (req_Context r) StatusBadRequest (error_Error e) (Some e)
  | None =>
  let keyedState := mkExchangeState state in
  let oauthCfg := newOAuth2Config c in
  let oauthCfg :=
    mkOAuth2Config (ClientID oauthCfg) (ClientSecret oauthCfg) (controller_Endpoint c)
                   (RedirectURL oauthCfg)
                   (Scopes (exchange_AnonymousOAuthState keyedState)) in
  let Url := AuthCodeURL oauthCfg newStateString in
  err ← template_Execute (RedirectTemplate c Url);
  match err with
  | Some e =>
      LogErrorAndWriteResponse (req_Context r) StatusInternalServerError
        "failed to return redirect notice HTML page" (Some e)
  | None => ret tt
  end end end end end end.

Definition finishOAuthExchange (c : commonController) (ctx : Context) (r : Request)
    (endpoint : Endpoint) : M (exchangeResult * option error) :=
  '(stateString, err) ← UnveilState ctx r;
  match err with
  | Some e =>
      ret (exchangeResult_of oauthFinishError,
           Some (Errorf "failed to unveil token state" e))
  | None =>
  let '(codec, err) := NewCodec (JwtSigningSecret c) in
  match err with
  | Some e =>
      ret (exchangeResult_of oauthFinishError,
           Some (Errorf "failed to create JWT codec" e))
  | None =>
  let '(state, err) := ParseInto codec stateString zero_exchangeState in
  match err with
  | Some e =>
      ret (exchangeResult_of oauthFinishError,
           Some (Errorf "failed to parse JWT state string" e))
  | None =>
  let '(k8sToken, err) := GetToken (controller_Authenticator c) r in
  match err with
  | Some _ =>
      ret (exchangeResult_of oauthFinishK8sAuthRequired, Some noActiveSessionError)
  | None =>
  let oauthCfg := newOAuth2Config c in
  let oauthCfg :=
    mkOAuth2Config (ClientID oauthCfg) (ClientSecret oauthCfg) endpoint
                   (RedirectURL oauthCfg) (cfg_Scopes oauthCfg) in
  let code := FormValue r "code" in
  '(token, err) ← oauthCfg_Exchange oauthCfg ctx code (FormValue r "scope");
  match err with
  | Some e =>
      ret (exchangeResult_of oauthFinishError,
           Some (Errorf "failed to finish the OAuth exchange" e))
  | None =>
      ret (mkExchangeResult state oauthFinishAuthenticated token k8sToken, None)
  end end end end end.

Definition syncTokenData (c : commonController) (ctx : Context)
    (exchange : exchangeResult) : M (option error) :=
  let ctx := WithAuthIntoContext (authorizationHeader exchange) ctx in
  let st := exchange_AnonymousOAuthState (result_exchangeState exchange) in
  '(accessToken, err) ← K8sClient_Get c ctx (TokenName st) (TokenNamespace st);
  match err with
  | Some e =>
      ret (Some (Errorf ("failed to get the SPIAccessToken object " ++
                         TokenNamespace st ++ "/" ++ TokenName st) e))
  | None =>
  match token exchange with
  | None => panic
  | Some t =>
  let apiToken :=
    mkToken (o_AccessToken t) (o_TokenType t) (o_RefreshToken t)
            (o_Expiry t mod 2 ^ 64)%Z in
  err ← TokenStorage_Store c ctx accessToken apiToken;
  match err with
  | Some e => ret (Some (Errorf "failed to persist the token to storage" e))
  | None => ret None
  end end end.

Definition Callback (c : commonController) (ctx : Context) (r : Request) : M unit :=
  '(exchange, err) ← finishOAuthExchange c ctx r (controller_Endpoint c);
  match err with
  | Some e =>
      LogErrorAndWriteResponse (req_Context r) StatusBadRequest
        "error in Service Provider token exchange" (Some e)
  | None =>
  if oauthFinishResult_eqb (result exchange) oauthFinishK8sAuthRequired then
    LogErrorAndWriteResponse (req_Context r) StatusUnauthorized
      "could not authenticate to Kubernetes" err
  else
  err ← syncTokenData c ctx exchange;
  match err with
  | Some e =>
      LogErrorAndWriteResponse (req_Context r) StatusInternalServerError
        "failed to store token data to cluster" (Some e)
  | None =>
  let st := exchange_AnonymousOAuthState (result_exchangeState exchange) in
  AuditLogWithTokenInfo ctx "OAuth authentication completed successfully"
    (TokenNamespace st) (TokenName st);;
  let redirectLocation := FormValue r "redirect_after_login" in
  let redirectLocation :=
    if String.eqb redirectLocation ""
    then TrimSuffix_slash (BaseUrl c) ++ "/" ++ "callback_success"
    else redirectLocation in
  http_Redirect r redirectLocation StatusFound
  end end.

(** [template.ParseFiles("../static/callback_error.html")]: the parsed
    page as a function of its data, [None] when the file does not
    parse (the source drops that error and keeps a nil template). *)
Variable callback_error_html : option (viewData -> string * option error).

Definition CallbackErrorHandler (r : Request) : M unit :=
  let q := URL_Query r in
  let errorMsg := Values_Get q "error" in
  let errorDescription := Values_Get q "error_description" in
  let data := mkViewData errorMsg errorDescription in
  match callback_error_html with
  | None => panic
  | Some tmpl =>
      err ← template_Execute (tmpl data);
      match err with
      | None => WriteHeader StatusOK
      | Some _ =>
          WriteHeader StatusInternalServerError;;
          Write ("Error response returned to OAuth callback: " ++ errorMsg ++
                 ". Message: " ++ errorDescription ++ " ")
      end
  end.

(** The steps of [Authenticate] that precede the access check: the
    codec is created, the state decodes, the bearer token is found. *)
Definition reaches_gate (c : commonController) (r : Request)
    : option (string * AnonymousOAuthState) :=
  match NewCodec (JwtSigningSecret c) with
  | (codec, None) =>
      match ParseAnonymous codec (FormValue r "state") with
      | (state, None) =>
          match GetToken (controller_Authenticator c) r with
          | (token, None) => Some (token, state)
          | _ => None
          end
      | _ => None
      end
  | _ => None
  end.

(** The review that [checkIdentityHasAccess] submits. *)
Definition review_for (state : AnonymousOAuthState) : SelfSubjectAccessReview :=
  mkReview (mkResourceAttributes (TokenNamespace state) "create"
              GroupVersion.1 GroupVersion.2 "spiaccesstokendataupdates")
           false.

(** *** The upload handler *)

(** [WithAuthFromRequestIntoContext(r, ctx)] is not among the sources:
    the context with the authorization of the request, or an error. *)
Variable WithAuthFromRequestIntoContext : Request -> Context -> Context * option error.

(** [json.NewDecoder(r.Body).Decode(data)]: the token the body decodes
    into, starting from [data], and the error. *)
Variable json_Decode : string -> Token -> Token * option error.

(** The handler that [HandleUpload(uploader)] returns. *)
Definition HandleUpload (uploader : TokenUploader) (ur : UploadRequest)
    (u : UploadWorld) : option UploadWorld :=
  let r := up_Request ur in
  let '(ctx, err) := WithAuthFromRequestIntoContext r (req_Context r) in
  match err with
  | Some e =>
      respond (LogErrorAndWriteResponse (req_Context r) StatusUnauthorized
                 "failed extract authorization information from headers" (Some e)) u
  | None =>
  let tokenObjectName := default "" (mux_Vars ur !! "name") in
  let tokenObjectNamespace := default "" (mux_Vars ur !! "namespace") in
  if Nat.ltb (String.length tokenObjectName) 1 ||
     Nat.ltb (String.length tokenObjectNamespace) 1 then
    respond (LogDebugAndWriteResponse (req_Context r) StatusInternalServerError
               "Incorrect service deployment. Token name and namespace can't be omitted or empty.")
            u
  else
  let '(data, err) := json_Decode (Body ur) (mkToken "" "" "" 0) in
  match err with
  | Some e =>
      respond (LogErrorAndWriteResponse (req_Context r) StatusBadRequest
                 "failed to decode request body as token JSON" (Some e)) u
  | None =>
  if String.eqb (AccessToken data) "" then
    respond (LogDebugAndWriteResponse (req_Context r) StatusBadRequest
               "access token can't be omitted or empty") u
  else
  let u := mkUploadWorld (up_world u)
             (up_calls u ++ [mkUploadCall ctx tokenObjectName tokenObjectNamespace data])%list in
  match Upload uploader ctx tokenObjectName tokenObjectNamespace data with
  | Some e =>
      respond (LogErrorAndWriteResponse (req_Context r) StatusInternalServerError
                 "failed to upload the token" (Some e)) u
  | None => respond (WriteHeader StatusNoContent) u
  end
  end
  end.

(** The calls made to the uploader between two worlds of one run. *)
Definition calls_since (u u' : UploadWorld) : list UploadCall :=
  drop (length (up_calls u)) (up_calls u').

(** The world an upload ends in (the starting world if it panics). *)
Definition upload_final (h : UploadWorld -> option UploadWorld) (u : UploadWorld)
    : UploadWorld :=
  default u (h u).

(** The kind of an outgoing call, without its arguments. *)
Inductive EventKind : Type :=
| KCreateReview | KGetAccessToken | KExchange | KStore | KAudit.

Definition event_kind (e : Event) : EventKind :=
  match e with
  | EvCreateReview _ _ => KCreateReview
  | EvGetAccessToken _ _ _ => KGetAccessToken
  | EvExchange _ _ _ _ => KExchange
  | EvStore _ _ _ => KStore
  | EvAudit _ _ _ => KAudit
  end.

(** The identity under which a call reaches the cluster or the
    storage. *)
Definition event_auth (e : Event) : option string :=
  match e with
  | EvCreateReview ctx _ => ctx_auth ctx
  | EvGetAccessToken ctx _ _ => ctx_auth ctx
  | EvExchange _ ctx _ _ => ctx_auth ctx
  | EvStore ctx _ _ => ctx_auth ctx
  | EvAudit _ _ _ => None
  end.

(** The OAuth client configuration of the controller with its endpoint
    and scopes filled in, as both handlers build it. *)
Definition oauthCfg_with (c : commonController) (endpoint : Endpoint)
    (scopes : list string) : oauth2_Config :=
  mkOAuth2Config (ClientId (Config c)) (config_ClientSecret (Config c)) endpoint
                 (redirectUrl c) scopes.

(** The [v1beta1.Token] that [syncTokenData] builds from the provider's
    token. *)
Definition apiToken_of (t : oauth2_Token) : Token :=
  mkToken (o_AccessToken t) (o_TokenType t) (o_RefreshToken t) (o_Expiry t mod 2 ^ 64)%Z.

(** Where [Callback] sends the user agent after a stored token. *)
Definition redirectLocation_of (c : commonController) (r : Request) : string :=
  if String.eqb (FormValue r "redirect_after_login") ""
  then TrimSuffix_slash (BaseUrl c) ++ "/" ++ "callback_success"
  else FormValue r "redirect_after_login".

(** [Authenticate] turns the request down with [status], after the
    outgoing calls [calls], without touching the session store or the
    random source. *)
Definition rejected (c : commonController) (r : Request) (w : World)
    (status : nat) (calls : list EventKind) : Prop :=
  exists w',
    Authenticate c r w = Some (tt, w') /\
    resp_status (response w') = Some status /\
    sessions w' = sessions w /\ rand_Reader w' = rand_Reader w /\
    event_kind <$> trace_since w w' = calls.

(** ** Properties of the random token and of the veil *)

Lemma String_get_Some (s : string) (n : nat) (c : ascii) :
  String.get n s = Some c ->
  n < String.length s /\ c ∈ list_ascii_of_string s.
Proof.
  revert n. induction s as [|a s IH]; intros n H; simpl in *; [discriminate|].
  destruct n as [|n].
  - injection H as ->. split; [lia | left].
  - destruct (IH _ H). split; [lia | by right].
Qed.

Lemma String_get_lt (s : string) (n : nat) :
  n < String.length s -> is_Some (String.get n s).
Proof.
  revert n. induction s as [|a s IH]; intros n H; simpl in *; [lia|].
  destruct n as [|n]; [by eexists | apply IH; lia].
Qed.

Lemma length_string_of_list (l : list ascii) :
  String.length (string_of_list_ascii l) = length l.
Proof. induction l; simpl; congruence. Qed.

Lemma list_of_string_of_list (l : list ascii) :
  list_ascii_of_string (string_of_list_ascii l) = l.
Proof. induction l; simpl; congruence. Qed.

Lemma letter_of_range (d : nat) (c : ascii) :
  letter_of d = Some c -> d < 36 /\ in_alphabet c.
Proof. intros H. by apply String_get_Some in H. Qed.

Lemma spells_range (draws : list nat) (cs : list ascii) :
  spells draws cs ->
  length cs = length draws /\ Forall (fun d => d < 36) draws /\ Forall in_alphabet cs.
Proof.
  induction 1 as [|d c ds cs Hd _ (Hl & Hds & Hcs)]; [by repeat split|].
  apply letter_of_range in Hd as [??].
  simpl; repeat split; [congruence | by constructor | by constructor].
Qed.

Lemma spells_total (draws : list nat) :
  Forall (fun d => d < 36) draws -> exists cs, spells draws cs.
Proof.
  induction 1 as [|d ds Hd _ [cs IH]]; [exists []; constructor|].
  destruct (String_get_lt letterBytes d Hd) as [c Hc].
  exists (c :: cs). by constructor.
Qed.

(** One turn of the loop, by the next outcome of the source. *)
Lemma randStringBytes_loop_S (todo i : nat) (b : list ascii) (w : World) :
  randStringBytes_loop (S todo) i b w =
  match rand_Reader w with
  | Some d :: rest =>
      if Nat.ltb d (String.length letterBytes)
      then match letter_of d with
           | Some c => randStringBytes_loop todo (S i) (<[i := c]> b) (with_rand w rest)
           | None => None
           end
      else Some (("", Some randomStringGenerationError), with_rand w rest)
  | None :: rest => Some (("", Some randomStringGenerationError), with_rand w rest)
  | [] => Some (("", Some randomStringGenerationError), w)
  end.
Proof.
  change (randStringBytes_loop (S todo) i b w) with
    (bind (fun '(n, err) =>
             match err with
             | Some _ => ret ("", Some randomStringGenerationError)
             | None =>
                 match String.get n letterBytes with
                 | Some c => randStringBytes_loop todo (S i) (<[i := c]> b)
                 | None => panic
                 end
             end) (rand_Int (String.length letterBytes)) w).
  unfold bind, rand_Int, letter_of, with_rand.
  destruct (rand_Reader w) as [|[d|] rest]; try reflexivity.
  destruct (Nat.ltb d (String.length letterBytes)); [|reflexivity].
  by destruct (String.get d letterBytes).
Qed.

(** A draw selects a letter exactly when it is below the bound that the
    loop hands to [rand.Int]. *)
Lemma letter_of_bound (d : nat) (c : ascii) :
  letter_of d = Some c -> (Nat.ltb d (String.length letterBytes)) = true.
Proof.
  intros H. apply Nat.ltb_lt. by apply letter_of_range in H as [??].
Qed.

Lemma with_rand_id (w : World) : with_rand w (rand_Reader w) = w.
Proof. by destruct w. Qed.

(** Setting the first byte not yet set. *)
Lemma insert_next_byte (pre : list ascii) (c z : ascii) (l : list ascii) :
  <[length pre := c]> (pre ++ z :: l)%list = ((pre ++ [c]) ++ l)%list.
Proof. induction pre as [|a pre IH]; simpl; [done | by rewrite IH]. Qed.

(** The loop on a source whose next draws are all answered: [pre] are
    the bytes set so far, the remaining ones are still zero. *)
Lemma randStringBytes_loop_ok (draws : list nat) (cs : list ascii) :
  spells draws cs ->
  forall pre w rest,
    rand_Reader w = ((Some <$> draws) ++ rest)%list ->
    randStringBytes_loop (length draws) (length pre)
      (pre ++ replicate (length draws) Ascii.zero)%list w =
    Some ((string_of_list_ascii (pre ++ cs)%list, None), with_rand w rest).
Proof.
  induction 1 as [|d c ds cs Hd _ IH]; intros pre w rest Hw.
  - simpl in *. subst rest. by rewrite with_rand_id.
  - change (length (d :: ds)) with (S (length ds)).
    rewrite randStringBytes_loop_S, Hw, fmap_cons. cbn [app].
    rewrite (letter_of_bound _ _ Hd), Hd.
    change (replicate (S (length ds)) Ascii.zero)
      with (Ascii.zero :: replicate (length ds) Ascii.zero).
    rewrite insert_next_byte.
    replace (S (length pre)) with (length (pre ++ [c])%list)
      by (rewrite length_app; simpl; lia).
    erewrite IH by reflexivity.
    by rewrite <- app_assoc.
Qed.

(** The loop changes nothing but the random source. *)
Lemma randStringBytes_loop_frame (n : nat) :
  forall i b w x w',
    randStringBytes_loop n i b w = Some (x, w') -> w' = with_rand w (rand_Reader w').
Proof.
  induction n as [|n IH]; intros i b w x w' H.
  - change (Some ((string_of_list_ascii b, @None error), w) = Some (x, w')) in H.
    simplify_eq. by rewrite with_rand_id.
  - rewrite randStringBytes_loop_S in H.
    destruct (rand_Reader w) as [|[d|] rest];
      [simplify_eq; by rewrite with_rand_id | | by simplify_eq].
    destruct (Nat.ltb d (String.length letterBytes)); [|by simplify_eq].
    destruct (letter_of d); [|done]. apply IH in H. by rewrite H at 1.
Qed.

(** The loop never panics: the bound handed to [rand.Int] is the length
    of [letterBytes], so every value it answers with indexes a letter. *)
Lemma randStringBytes_loop_total (n : nat) :
  forall i b w, is_Some (randStringBytes_loop n i b w).
Proof.
  induction n as [|n IH]; intros i b w; [by eexists|].
  rewrite randStringBytes_loop_S.
  destruct (rand_Reader w) as [|[d|] rest]; try by eexists.
  destruct (Nat.ltb_spec d (String.length letterBytes)) as [Hd|_]; [|by eexists].
  destruct (String_get_lt letterBytes d Hd) as [c Hc].
  unfold letter_of. rewrite Hc. apply IH.
Qed.

(** The loop on a source that fails before the string is complete. *)
Lemma randStringBytes_loop_fails (draws : list nat) (cs : list ascii) :
  spells draws cs ->
  forall n i b w rest,
    length draws < n ->
    rand_Reader w = ((Some <$> draws) ++ rest)%list ->
    source_fails rest ->
    randStringBytes_loop n i b w =
    Some (("", Some randomStringGenerationError), with_rand w (tail rest)).
Proof.
  induction 1 as [|d c ds cs Hd _ IH]; intros n i b w rest Hn Hw Hf;
    (destruct n as [|n]; [simpl in Hn; lia|]);
    rewrite randStringBytes_loop_S, Hw; cbn [fmap list_fmap app length] in *.
  - destruct Hf as [-> | [rest' ->]]; simpl; [|done].
    by rewrite <- Hw, with_rand_id.
  - rewrite (letter_of_bound _ _ Hd), Hd.
    erewrite IH; [reflexivity | lia | reflexivity | done].
Qed.

(** Every string the loop returns without error is spelled by the
    draws it consumed. *)
Lemma randStringBytes_loop_inv (n : nat) :
  forall pre w s w',
    randStringBytes_loop n (length pre) (pre ++ replicate n Ascii.zero)%list w =
      Some ((s, None), w') ->
    exists draws cs,
      length draws = n /\ spells draws cs /\
      rand_Reader w = ((Some <$> draws) ++ rand_Reader w')%list /\
      s = string_of_list_ascii (pre ++ cs)%list.
Proof.
  induction n as [|n IH]; intros pre w s w' H.
  - change (Some ((string_of_list_ascii (pre ++ [])%list, @None error), w) =
            Some ((s, None), w')) in H.
    simplify_eq. exists [], []. repeat split. constructor.
  - rewrite randStringBytes_loop_S in H.
    destruct (rand_Reader w) as [|[d|] rest] eqn:Hw; try discriminate.
    destruct (Nat.ltb d (String.length letterBytes)); [|discriminate].
    destruct (letter_of d) as [c|] eqn:Hd; [|discriminate].
    change (replicate (S n) Ascii.zero) with (Ascii.zero :: replicate n Ascii.zero) in H.
    rewrite insert_next_byte in H.
    replace (S (length pre)) with (length (pre ++ [c])%list) in H
      by (rewrite length_app; simpl; lia).
    apply IH in H as (ds & cs & Hlen & Hsp & Hr & ->).
    exists (d :: ds), (c :: cs).
    split; [simpl; congruence|]. split; [by constructor|].
    split; [by rewrite fmap_cons, <- app_comm_cons, <- Hr|].
    by rewrite <- app_assoc.
Qed.

Lemma session_data_put (ctx ctx' : Context) (key val : string) (w : World) :
  session_data (put_session ctx key val w) ctx' =
  if decide (ctx_session ctx = ctx_session ctx')
  then <[key := val]> (session_data w ctx)
  else session_data w ctx'.
Proof.
  unfold session_data, put_session; simpl.
  rewrite lookup_insert. by case_decide.
Qed.

Lemma VeilRealState_unfold (req : Request) (w : World) :
  VeilRealState req w =
  let state := Values_Get (URL_Query req) "state" in
  if String.eqb state "" then Some (("", Some noStateError), w)
  else match randStringBytes 32 w with
       | Some ((newState, None), w1) =>
           Some ((newState, None), put_session (req_Context req) newState state w1)
       | Some ((_, Some e), w1) => Some (("", Some e), w1)
       | None => None
       end.
Proof.
  unfold VeilRealState. cbv zeta.
  destruct (String.eqb _ ""); [reflexivity|].
  unfold mbind, M_bind, bind.
  by destruct (randStringBytes 32 w) as [[[newState [e|]] w1]|].
Qed.

Lemma UnveilState_unfold (ctx : Context) (req : Request) (w : World) :
  UnveilState ctx req w =
  let state := Values_Get (URL_Query req) "state" in
  if String.eqb state "" then Some (("", Some noStateError), w)
  else Some ((default "" (session_data w ctx !! state), None), w).
Proof. unfold UnveilState. cbv zeta. by destruct (String.eqb _ ""). Qed.

(** A veil that returns without error has read a non-empty state,
    consumed 32 answered draws, returns their spelling and stores the
    state under it in the session of the request. *)
Lemma VeilRealState_inv (req : Request) (w : World) (tok : string) (w' : World) :
  VeilRealState req w = Some ((tok, None), w') ->
  exists draws cs,
    Values_Get (URL_Query req) "state" <> "" /\
    length draws = 32 /\ spells draws cs /\
    rand_Reader w = ((Some <$> draws) ++ rand_Reader w')%list /\
    tok = string_of_list_ascii cs /\
    w' = put_session (req_Context req) tok (Values_Get (URL_Query req) "state")
           (with_rand w (rand_Reader w')).
Proof.
  rewrite VeilRealState_unfold. cbv zeta.
  destruct (String.eqb_spec (Values_Get (URL_Query req) "state") "") as [|Hne];
    [discriminate|].
  destruct (randStringBytes 32 w) as [[[newState [e|]] w1]|] eqn:Hr; try discriminate.
  intros H. injection H as -> <-.
  unfold randStringBytes in Hr.
  pose proof (randStringBytes_loop_frame _ _ _ _ _ _ Hr) as Hw1.
  apply (randStringBytes_loop_inv 32 []) in Hr as (draws & cs & Hlen & Hsp & Hrd & Htok).
  exists draws, cs. repeat split; try done.
  rewrite Hw1 at 1. reflexivity.
Qed.

(** On a source that answers 32 draws, the veil of a non-empty state
    returns. *)
Lemma VeilRealState_ok (req : Request) (w : World) (draws : list nat)
    (cs : list ascii) (rest : list (option nat)) :
  Values_Get (URL_Query req) "state" <> "" ->
  length draws = 32 -> spells draws cs ->
  rand_Reader w = ((Some <$> draws) ++ rest)%list ->
  VeilRealState req w =
  Some ((string_of_list_ascii cs, None),
        put_session (req_Context req) (string_of_list_ascii cs)
          (Values_Get (URL_Query req) "state") (with_rand w rest)).
Proof.
  intros Hne Hlen Hsp Hw. rewrite VeilRealState_unfold. cbv zeta.
  destruct (String.eqb_spec (Values_Get (URL_Query req) "state") "") as [|_]; [done|].
  unfold randStringBytes. rewrite <- Hlen.
  change (randStringBytes_loop (length draws) 0 (replicate (length draws) zero) w)
    with (randStringBytes_loop (length draws) (length (@nil ascii))
            ([] ++ replicate (length draws) zero)%list w).
  by rewrite (randStringBytes_loop_ok draws cs Hsp [] w rest Hw).
Qed.

(** On a source that fails within the first 32 reads, the veil of a
    non-empty state fails with [randomStringGenerationError] and
    stores nothing. *)
Lemma VeilRealState_source_fails (req : Request) (w : World) (draws : list nat)
    (cs : list ascii) (rest : list (option nat)) :
  Values_Get (URL_Query req) "state" <> "" ->
  length draws < 32 -> spells draws cs ->
  rand_Reader w = ((Some <$> draws) ++ rest)%list ->
  source_fails rest ->
  VeilRealState req w =
  Some (("", Some randomStringGenerationError), with_rand w (tail rest)).
Proof.
  intros Hne Hlen Hsp Hw Hf. rewrite VeilRealState_unfold. cbv zeta.
  destruct (String.eqb_spec (Values_Get (URL_Query req) "state") "") as [|_]; [done|].
  unfold randStringBytes.
  by rewrite (randStringBytes_loop_fails draws cs Hsp 32 0 _ w rest Hlen Hw Hf).
Qed.

(** The veil is the only writer of the session: a key held after a veil
    was held before, or is the token that this veil returned, stored in
    the session of its request. *)
Lemma VeilRealState_session_keys (req : Request) (w w' : World)
    (x : string * option error) (ctx : Context) (k : string) :
  VeilRealState req w = Some (x, w') ->
  is_Some (session_data w' ctx !! k) ->
  is_Some (session_data w ctx !! k) \/
  (x = (k, None) /\ ctx_session ctx = ctx_session (req_Context req)).
Proof.
  rewrite VeilRealState_unfold. cbv zeta.
  destruct (String.eqb _ ""); [intros; simplify_eq; by left|].
  destruct (randStringBytes 32 w) as [[[newState e] w1]|] eqn:Hr; [|done].
  apply randStringBytes_loop_frame in Hr.
  assert (forall c, session_data w1 c = session_data w c) as Hs by (by rewrite Hr).
  destruct e as [e|]; intros H Hk; simplify_eq.
  - left. by rewrite <- Hs.
  - rewrite session_data_put in Hk. case_decide as Hctx.
    + destruct (decide (newState = k)) as [->|Hne]; [by right|].
      rewrite lookup_insert_ne in Hk by done.
      left. unfold session_data in *. rewrite <- Hctx. by rewrite <- Hs.
    + left. by rewrite <- Hs.
Qed.

Lemma alphabet_NoDup : NoDup (list_ascii_of_string letterBytes).
Proof. apply (bool_decide_unpack _). by vm_compute. Qed.

(** The token of a successful veil: its length and its letters. *)
Lemma VeilRealState_token (req : Request) (w : World) (tok : string) (w' : World) :
  VeilRealState req w = Some ((tok, None), w') ->
  String.length tok = 32 /\ Forall in_alphabet (list_ascii_of_string tok).
Proof.
  intros H.
  apply VeilRealState_inv in H as (draws & cs & _ & Hlen & Hsp & _ & -> & _).
  destruct (spells_range _ _ Hsp) as (Hcs & _ & Hal).
  rewrite length_string_of_list, list_of_string_of_list.
  split; [congruence | done].
Qed.

(** The veil never panics. *)
Lemma VeilRealState_total (req : Request) (w : World) :
  is_Some (VeilRealState req w).
Proof.
  rewrite VeilRealState_unfold. cbv zeta.
  destruct (String.eqb _ ""); [by eexists|].
  unfold randStringBytes.
  destruct (randStringBytes_loop_total 32 0 (replicate 32 Ascii.zero) w)
    as [[[s e] w1] H].
  rewrite H. destruct e; by eexists.
Qed.

(** Every letter of the alphabet is selected by a draw. *)
Lemma in_alphabet_letter_of (c : ascii) :
  in_alphabet c -> exists d, letter_of d = Some c.
Proof.
  unfold in_alphabet, letter_of. generalize letterBytes as s.
  induction s as [|a s IH]; simpl; intros H.
  - by apply elem_of_nil in H.
  - apply elem_of_cons in H as [-> | H]; [by exists 0|].
    destruct (IH H) as [d Hd]. by exists (S d).
Qed.

Lemma spells_onto (cs : list ascii) :
  Forall in_alphabet cs -> exists draws, spells draws cs.
Proof.
  induction 1 as [|c cs Hc _ [ds IH]]; [exists []; constructor|].
  destruct (in_alphabet_letter_of c Hc) as [d Hd].
  exists (d :: ds). by constructor.
Qed.

(** C9.  The alphabet [letterBytes] has 36 symbols, none repeated.  The
    veil never panics: the bound it hands to [rand.Int] is the length
    of the alphabet, so every value drawn indexes a letter.  Every
    veiled state returned by a successful veil is 32 characters long,
    each of them a letter of the alphabet; position by position it is
    the letter selected by one draw of the secure source below the
    alphabet's length.  Every value below the alphabet's length can be
    drawn at every position: 32 such draws always give a veiled state,
    their spelling, so that every 32-letter string over the alphabet is
    the veiled state of some 32 draws. *)
Theorem veiled_state_shape :
  String.length letterBytes = 36 /\
  NoDup (list_ascii_of_string letterBytes) /\
  (forall req w, is_Some (VeilRealState req w)) /\
  (forall req w tok w',
      VeilRealState req w = Some ((tok, None), w') ->
      String.length tok = 32 /\
      Forall in_alphabet (list_ascii_of_string tok) /\
      exists draws,
        rand_Reader w = ((Some <$> draws) ++ rand_Reader w')%list /\
        length draws = 32 /\
        Forall (fun d => d < String.length letterBytes) draws /\
        spells draws (list_ascii_of_string tok)) /\
  (forall req w draws rest,
      Values_Get (URL_Query req) "state" <> "" ->
      length draws = 32 ->
      Forall (fun d => d < String.length letterBytes) draws ->
      rand_Reader w = ((Some <$> draws) ++ rest)%list ->
      exists tok w',
        VeilRealState req w = Some ((tok, None), w') /\
        spells draws (list_ascii_of_string tok) /\
        rand_Reader w' = rest) /\
  (forall req tok,
      Values_Get (URL_Query req) "state" <> "" ->
      String.length tok = 32 ->
      Forall in_alphabet (list_ascii_of_string tok) ->
      exists draws,
        length draws = 32 /\
        forall w rest,
          rand_Reader w = ((Some <$> draws) ++ rest)%list ->
          exists w', VeilRealState req w = Some ((tok, None), w')).
Proof.
  split; [reflexivity|]. split; [apply alphabet_NoDup|].
  split; [apply VeilRealState_total|]. split; [|split].
  - intros req w tok w' H.
    apply VeilRealState_inv in H as (draws & cs & _ & Hlen & Hsp & Hr & -> & _).
    destruct (spells_range _ _ Hsp) as (Hcs & Hds & Hal).
    rewrite length_string_of_list, list_of_string_of_list.
    split; [congruence|]. split; [done|]. by exists draws.
  - intros req w draws rest Hne Hlen Hds Hw.
    destruct (spells_total draws Hds) as [cs Hsp].
    eexists _, _. split; [by apply (VeilRealState_ok req w draws cs rest)|].
    by rewrite list_of_string_of_list.
  - intros req tok Hne Hlen Hal.
    destruct (spells_onto _ Hal) as [draws Hsp].
    destruct (spells_range _ _ Hsp) as (Hcs & _ & _).
    assert (length draws = 32) as Hd.
    { rewrite <- Hcs, <- Hlen.
      rewrite <- (string_of_list_ascii_of_string tok) at 2.
      by rewrite length_string_of_list. }
    exists draws. split; [done|].
    intros w rest Hw. eexists.
    rewrite (VeilRealState_ok req w draws (list_ascii_of_string tok) rest Hne Hd Hsp Hw).
    by rewrite string_of_list_ascii_of_string.
Qed.

(** C4, amended.  Unveiling the token of a successful veil, in the
    same session, gives back exactly the state that was veiled, which
    is non-empty; and the token differs from the state whenever the
    state is not itself a 32-character string over the alphabet. *)
Theorem veil_unveil_roundtrip (req : Request) (w : World) (tok : string) (w' : World)
    (ctx : Context) (req' : Request) :
  VeilRealState req w = Some ((tok, None), w') ->
  ctx_session ctx = ctx_session (req_Context req) ->
  Values_Get (URL_Query req') "state" = tok ->
  let s := Values_Get (URL_Query req) "state" in
  s <> "" /\
  UnveilState ctx req' w' = Some ((s, None), w') /\
  (String.length s <> 32 \/ ~ Forall in_alphabet (list_ascii_of_string s) -> tok <> s).
Proof.
  intros Hveil Hctx Hq s.
  destruct (VeilRealState_token _ _ _ _ Hveil) as (Hlen & Hal).
  apply VeilRealState_inv in Hveil as (draws & cs & Hne & _ & _ & _ & Htok & Hw').
  split; [done|]. split.
  - rewrite UnveilState_unfold, Hq. cbv zeta.
    destruct (String.eqb_spec tok "") as [E|_].
    { rewrite E in Hlen. discriminate. }
    rewrite Hw' at 1. rewrite session_data_put.
    rewrite decide_True by done. by rewrite lookup_insert_eq.
  - intros [Hs | Hs] E; subst s; rewrite <- E in Hs; [congruence | done].
Qed.

(** C6.  A veil of a request without [state] fails with
    [noStateError] and leaves the world as it was; an unveil of a
    request without [state] fails with [noStateError]; an unveil of a
    non-empty key that the session does not hold returns the empty
    string and no error. *)
Theorem missing_state_outcomes :
  (forall req w,
      Values_Get (URL_Query req) "state" = "" ->
      VeilRealState req w = Some (("", Some noStateError), w)) /\
  (forall ctx req w,
      Values_Get (URL_Query req) "state" = "" ->
      UnveilState ctx req w = Some (("", Some noStateError), w)) /\
  (forall ctx req w,
      Values_Get (URL_Query req) "state" <> "" ->
      session_data w ctx !! Values_Get (URL_Query req) "state" = None ->
      UnveilState ctx req w = Some (("", None), w)).
Proof.
  split; [|split].
  - intros req w H. rewrite VeilRealState_unfold. cbv zeta. by rewrite H.
  - intros ctx req w H. rewrite UnveilState_unfold. cbv zeta. by rewrite H.
  - intros ctx req w Hne Hnone. rewrite UnveilState_unfold. cbv zeta.
    destruct (String.eqb_spec (Values_Get (URL_Query req) "state") "") as [|_]; [done|].
    by rewrite Hnone.
Qed.

(** C8.  An unveil of a key that the session holds returns the stored
    state and leaves the world, the session store included, exactly as
    it was: the entry is still there, and a second unveil of the same
    key returns the same state. *)
Theorem unveil_keeps_entry (ctx : Context) (req : Request) (w : World)
    (realState : string) :
  Values_Get (URL_Query req) "state" <> "" ->
  session_data w ctx !! Values_Get (URL_Query req) "state" = Some realState ->
  UnveilState ctx req w = Some ((realState, None), w) /\
  (UnveilState ctx req;; UnveilState ctx req) w = Some ((realState, None), w).
Proof.
  intros Hne Hsome.
  assert (UnveilState ctx req w = Some ((realState, None), w)) as H.
  { rewrite UnveilState_unfold. cbv zeta.
    destruct (String.eqb_spec (Values_Get (URL_Query req) "state") "") as [|_]; [done|].
    by rewrite Hsome. }
  split; [done|]. unfold mbind, M_bind, bind. by rewrite H.
Qed.

(** An unveil never panics and never changes the world, whatever the
    request. *)
Lemma UnveilState_pure (ctx : Context) (req : Request) (w : World) :
  exists r, UnveilState ctx req w = Some (r, w).
Proof.
  rewrite UnveilState_unfold. cbv zeta.
  destruct (String.eqb _ ""); by eexists.
Qed.

(** ** Properties of the controller *)

(** Unfold the monadic plumbing of the handlers. *)
Ltac unfold_run :=
  unfold K8sClient_Create, K8sClient_Get, TokenStorage_Store, oauthCfg_Exchange,
    LogErrorAndWriteResponse, LogDebugAndWriteResponse, AuditLogWithTokenInfo,
    template_Execute, http_Redirect, WriteHeader, Write, set_response, emit,
    mbind, M_bind, bind, ret, panic in *.

Lemma trace_since_app (w : World) (s : gmap nat (gmap string string))
    (rd : list (option nat)) (evs : list Event) (resp : Response) :
  trace_since w (mkWorld s rd (trace w ++ evs)%list resp) = evs.
Proof. unfold trace_since; simpl. apply drop_app_length. Qed.

Lemma trace_since_refl (w : World) : trace_since w w = [].
Proof. unfold trace_since. apply drop_all. Qed.

(** Read off the calls made since [w] from an explicit final world. *)
Ltac since :=
  unfold trace_since, with_rand; cbn [trace sessions rand_Reader response];
  rewrite <- ?app_assoc; rewrite ?drop_app_length, ?drop_all;
  cbn [app filter]; try done.

(** C3.  [checkIdentityHasAccess] always returns, and makes exactly
    one cluster call: the creation of the review, under the request's
    context carrying the caller-supplied [token] as its identity,
    whatever identity that context carried before. *)
Theorem review_under_caller_token (c : commonController) (token : string)
    (req : Request) (state : AnonymousOAuthState) (w : World) :
  exists res review w',
    checkIdentityHasAccess c token req state w = Some (res, w') /\
    trace_since w w' =
      [EvCreateReview (WithAuthIntoContext token (req_Context req)) review] /\
    ctx_auth (WithAuthIntoContext token (req_Context req)) = Some token /\
    ra_Namespace (review_Spec review) = TokenNamespace state /\
    sessions w' = sessions w /\ response w' = response w.
Proof.
  unfold checkIdentityHasAccess. unfold_run.
  destruct (client_Create _ _ _) as [review [e|]]; simpl;
    (do 3 eexists; split; [reflexivity|]);
    rewrite trace_since_app; by repeat split.
Qed.

(** C1.  When the session of the callback does not hold the [state]
    of the request (it was never stored there, or the session
    expired), and the state codec rejects the empty string,
    [finishOAuthExchange] returns an error with the result
    [oauthFinishError] and leaves the world as it was: no call to the
    provider token endpoint, nor any other outgoing call, is made. *)
Theorem forged_state_rejected (c : commonController) (ctx : Context) (r : Request)
    (endpoint : Endpoint) (w : World) :
  session_data w ctx !! Values_Get (URL_Query r) "state" = None ->
  (forall codec dest,
      NewCodec (JwtSigningSecret c) = (codec, None) ->
      (ParseInto codec "" dest).2 <> None) ->
  exists res e w',
    finishOAuthExchange c ctx r endpoint w = Some ((res, Some e), w') /\
    result res = oauthFinishError /\ token res = None /\
    filter (fun ev => is_Exchange ev) (trace_since w w') = [] /\
    w' = w.
Proof.
  intros Hnone Hcodec.
  unfold finishOAuthExchange. unfold mbind, M_bind, bind.
  rewrite UnveilState_unfold. cbv zeta.
  destruct (String.eqb _ "").
  { do 3 eexists. split; [reflexivity|]. by rewrite trace_since_refl. }
  rewrite Hnone. cbn [default].
  destruct (NewCodec (JwtSigningSecret c)) as [codec [e|]] eqn:Hnew.
  { do 3 eexists. split; [reflexivity|]. by rewrite trace_since_refl. }
  specialize (Hcodec codec zero_exchangeState eq_refl).
  destruct (ParseInto codec "" zero_exchangeState) as [st [e|]]; [|done].
  do 3 eexists. split; [reflexivity|]. by rewrite trace_since_refl.
Qed.

Lemma VeilRealState_trace (req : Request) (w w' : World) (x : string * option error) :
  VeilRealState req w = Some (x, w') -> trace w' = trace w.
Proof.
  rewrite VeilRealState_unfold. cbv zeta.
  destruct (String.eqb _ ""); [by intros; simplify_eq|].
  destruct (randStringBytes 32 w) as [[[newState e] w1]|] eqn:Hr; [|done].
  apply randStringBytes_loop_frame in Hr.
  assert (trace w1 = trace w) as Ht by (by rewrite Hr).
  destruct e; intros; simplify_eq; [done | by rewrite <- Ht].
Qed.

(** C2, amended.  [Authenticate] creates the access review exactly
    once when the codec is created, the state decodes and the bearer
    token is found, under the bearer token extracted from that very
    request, and not at all otherwise; [Callback] never creates an
    access review. *)
Theorem access_gate_calls (c : commonController) :
  (forall r w w',
      Authenticate c r w = Some (tt, w') ->
      filter (fun ev => is_CreateReview ev) (trace_since w w') =
      match reaches_gate c r with
      | Some (token, state) =>
          [EvCreateReview (WithAuthIntoContext token (req_Context r)) (review_for state)]
      | None => []
      end) /\
  (forall ctx r w w',
      Callback c ctx r w = Some (tt, w') ->
      filter (fun ev => is_CreateReview ev) (trace_since w w') = []).
Proof.
  split.
  - intros r w w'. unfold Authenticate, reaches_gate, checkIdentityHasAccess.
    fold (review_for). unfold_run.
    destruct (NewCodec _) as [codec [e|]]; [intros [= <-]; since|].
    destruct (ParseAnonymous _ _) as [state [e|]]; [intros [= <-]; since|].
    destruct (GetToken _ _) as [token [e|]]; [intros [= <-]; since|].
    cbn [sessions rand_Reader trace response].
    destruct (client_Create _ _ _) as [review [e|]]; [intros [= <-]; since|].
    destruct (review_Allowed review); cbn [negb]; [|intros [= <-]; since].
    cbn [sessions rand_Reader trace response].
    match goal with |- context [VeilRealState r ?w0] =>
      destruct (VeilRealState r w0) as [[[tok e] w1]|] eqn:Hv; [|done] end.
    apply VeilRealState_trace in Hv. cbn [trace] in Hv.
    destruct e as [e|].
    { intros [= <-]. unfold trace_since. cbn [trace]. rewrite Hv. since. }
    cbn [fst snd].
    match goal with |- context [RedirectTemplate c ?u] =>
      destruct (RedirectTemplate c u) as [out terr] end.
    cbn [fst snd].
    destruct (String.eqb out ""), terr; intros [= <-]; unfold trace_since;
      cbn [trace]; rewrite Hv; since.
  - intros ctx r w w'. unfold Callback, finishOAuthExchange, syncTokenData.
    unfold_run. rewrite UnveilState_unfold. cbv zeta.
    intros H.
    repeat (case_match; simplify_eq; cbn [sessions rand_Reader trace response] in * );
      since.
Qed.

(** [Callback] answers every request that [finishOAuthExchange]
    fails with [400]; the [401] answer is never given. *)
Lemma Callback_never_Unauthorized (c : commonController) (ctx : Context)
    (r : Request) (w w' : World) :
  Callback c ctx r w = Some (tt, w') ->
  resp_status (response w) = None ->
  resp_status (response w') <> Some StatusUnauthorized.
Proof.
  unfold Callback, finishOAuthExchange, syncTokenData.
  unfold_run. rewrite UnveilState_unfold. cbv zeta.
  intros H Hfresh.
  repeat (case_match; simplify_eq;
          cbn [sessions rand_Reader trace response resp_status result
               oauthFinishResult_eqb] in * );
    try discriminate; rewrite ?Hfresh; cbn [default]; try discriminate.
Qed.

(** A callback whose state unveils and decodes but whose bearer token
    cannot be extracted: the exchange result is
    [oauthFinishK8sAuthRequired] together with a non-nil error, no
    outgoing call is made, and [Callback] answers [400]. *)
Lemma Callback_missing_bearer (c : commonController) (ctx : Context) (r : Request)
    (w : World) (codec : Codec) (st : exchangeState) (tokenErr : error) :
  Values_Get (URL_Query r) "state" <> "" ->
  NewCodec (JwtSigningSecret c) = (codec, None) ->
  ParseInto codec
    (default "" (session_data w ctx !! Values_Get (URL_Query r) "state"))
    zero_exchangeState = (st, None) ->
  (GetToken (controller_Authenticator c) r).2 = Some tokenErr ->
  resp_status (response w) = None ->
  finishOAuthExchange c ctx r (controller_Endpoint c) w =
    Some ((exchangeResult_of oauthFinishK8sAuthRequired, Some noActiveSessionError), w) /\
  exists w',
    Callback c ctx r w = Some (tt, w') /\
    resp_status (response w') = Some StatusBadRequest /\
    trace w' = trace w.
Proof.
  intros Hne Hnew Hparse Htok Hfresh.
  assert (finishOAuthExchange c ctx r (controller_Endpoint c) w =
          Some ((exchangeResult_of oauthFinishK8sAuthRequired,
                 Some noActiveSessionError), w)) as Hfin.
  { unfold finishOAuthExchange. unfold_run. rewrite UnveilState_unfold. cbv zeta.
    destruct (String.eqb_spec (Values_Get (URL_Query r) "state") "") as [|_]; [done|].
    rewrite Hnew, Hparse.
    destruct (GetToken _ r) as [k8sToken [e|]]; [done | discriminate]. }
  split; [done|].
  unfold Callback. unfold mbind at 1, M_bind at 1, bind at 1. rewrite Hfin.
  unfold_run. eexists. split; [reflexivity|].
  cbn [response resp_status trace]. by rewrite Hfresh.
Qed.

(** C7, amended.  When the access check has passed and the secure
    source fails during the veiling step, [Authenticate] answers
    [400] with the text of [randomStringGenerationError], stores
    nothing in the session and makes no further outgoing call beyond
    the access review and the audit entry. *)
Theorem veil_failure_answer (c : commonController) (r : Request) (w : World)
    (token : string) (state : AnonymousOAuthState) (review : SelfSubjectAccessReview)
    (draws : list nat) (cs : list ascii) (rest : list (option nat)) :
  reaches_gate c r = Some (token, state) ->
  client_Create (K8sClient c) (WithAuthIntoContext token (req_Context r))
    (review_for state) = (review, None) ->
  review_Allowed review = true ->
  Values_Get (URL_Query r) "state" <> "" ->
  length draws < 32 -> spells draws cs ->
  rand_Reader w = ((Some <$> draws) ++ rest)%list ->
  source_fails rest ->
  resp_status (response w) = None ->
  exists w',
    Authenticate c r w = Some (tt, w') /\
    resp_status (response w') = Some StatusBadRequest /\
    resp_body (response w') =
      resp_body (response w) ++ error_Error randomStringGenerationError /\
    sessions w' = sessions w /\
    filter (fun ev => is_Exchange ev) (trace_since w w') = [].
Proof.
  intros Hgate Hcreate Hallowed Hne Hlen Hsp Hw Hf Hfresh.
  unfold reaches_gate in Hgate.
  unfold Authenticate, checkIdentityHasAccess. unfold review_for in Hcreate.
  destruct (NewCodec _) as [codec [e|]]; [done|].
  destruct (ParseAnonymous _ _) as [state' [e|]]; [done|].
  destruct (GetToken _ _) as [token' [e|]]; [done|].
  injection Hgate as -> ->.
  unfold_run. rewrite Hcreate, Hallowed. cbn [negb sessions rand_Reader trace response].
  erewrite (VeilRealState_source_fails r _ draws cs rest Hne Hlen Hsp) by done.
  eexists. split; [reflexivity|].
  cbn [response resp_status resp_body sessions with_rand].
  rewrite Hfresh. repeat split. since.
Qed.

Lemma string_app_nil_r (s : string) : s ++ "" = s.
Proof.
  induction s as [|a s IH]; [done|].
  change (String a (s ++ "") = String a s). by rewrite IH.
Qed.

Lemma string_app_assoc (s t u : string) : (s ++ t) ++ u = s ++ t ++ u.
Proof.
  induction s as [|a s IH]; [done|].
  change (String a ((s ++ t) ++ u) = String a (s ++ t ++ u)). by rewrite IH.
Qed.

(** C10, amended.  The [Title] and [Message] handed to the error page
    template are exactly the first values of the request's [error]
    and [error_description] query parameters; the answer of the
    handler is determined by these two values and the world alone, and
    no outgoing call is made. *)
Theorem error_page_echoes_query (tmpl : viewData -> string * option error) :
  callback_error_html = Some tmpl ->
  (forall r w,
      let data := mkViewData (Values_Get (URL_Query r) "error")
                             (Values_Get (URL_Query r) "error_description") in
      exists w',
        CallbackErrorHandler r w = Some (tt, w') /\
        trace w' = trace w /\ sessions w' = sessions w /\
        resp_body (response w') =
          resp_body (response w) ++ (tmpl data).1 ++
          match (tmpl data).2 with
          | None => ""
          | Some _ =>
              "Error response returned to OAuth callback: " ++ Title data ++
              ". Message: " ++ Message data ++ " "
          end) /\
  (forall r1 r2 w,
      Values_Get (URL_Query r1) "error" = Values_Get (URL_Query r2) "error" ->
      Values_Get (URL_Query r1) "error_description" =
        Values_Get (URL_Query r2) "error_description" ->
      CallbackErrorHandler r1 w = CallbackErrorHandler r2 w).
Proof.
  intros Htmpl. split.
  - intros r w data. unfold CallbackErrorHandler. rewrite Htmpl. fold data.
    unfold_run.
    destruct (tmpl data) as [out [e|]]; cbn [fst snd];
      destruct (String.eqb_spec out "") as [->|_];
      (eexists; split; [reflexivity|]);
      cbn [response resp_body resp_status trace sessions Title Message data];
      destruct (resp_status (response w));
      cbn [response resp_body resp_status default];
      repeat split;
      by rewrite ?string_app_assoc, ?string_app_nil_r.
  - intros r1 r2 w H1 H2. unfold CallbackErrorHandler. by rewrite H1, H2.
Qed.

(** ** Further properties of the veil *)

Lemma letter_of_inj (d1 d2 : nat) (c : ascii) :
  letter_of d1 = Some c -> letter_of d2 = Some c -> d1 = d2.
Proof.
  intros H1 H2.
  destruct (letter_of_range _ _ H1) as [L1 _], (letter_of_range _ _ H2) as [L2 _].
  revert H1 H2.
  do 36 (destruct d1 as [|d1]; [
    do 36 (destruct d2 as [|d2]; [vm_compute; congruence|]); lia |]).
  lia.
Qed.

Lemma spells_inj (draws1 draws2 : list nat) (cs : list ascii) :
  spells draws1 cs -> spells draws2 cs -> draws1 = draws2.
Proof.
  intros H. revert draws2.
  induction H as [|d c ds cs Hd _ IH]; intros draws2 H2; inversion H2; subst; [done|].
  f_equal; [by eapply letter_of_inj | by apply IH].
Qed.

(** X1.  Two veils return the same token only when the source handed
    them the same 32 draws: the token determines the draws. *)
Theorem same_token_same_draws (req1 req2 : Request) (w1 w2 w1' w2' : World)
    (tok : string) :
  VeilRealState req1 w1 = Some ((tok, None), w1') ->
  VeilRealState req2 w2 = Some ((tok, None), w2') ->
  take 32 (rand_Reader w1) = take 32 (rand_Reader w2).
Proof.
  intros H1 H2.
  apply VeilRealState_inv in H1 as (d1 & cs1 & _ & L1 & S1 & R1 & T1 & _).
  apply VeilRealState_inv in H2 as (d2 & cs2 & _ & L2 & S2 & R2 & T2 & _).
  assert (cs1 = cs2) as <-.
  { rewrite <- (list_of_string_of_list cs1), <- (list_of_string_of_list cs2). congruence. }
  rewrite (spells_inj _ _ _ S2 S1) in R2.
  rewrite R1, R2.
  rewrite !take_app_length' by (by rewrite length_fmap). done.
Qed.

(** X2.  On a source whose next 32 outcomes are draws below 36, the veil
    of a request with a non-empty [state] returns a token without
    error, consumes exactly these 32 outcomes and stores the state
    under the token in the session of the request. *)
Theorem veil_returns (req : Request) (w : World) (draws : list nat)
    (rest : list (option nat)) :
  Values_Get (URL_Query req) "state" <> "" ->
  length draws = 32 ->
  Forall (fun d => d < 36) draws ->
  rand_Reader w = ((Some <$> draws) ++ rest)%list ->
  exists tok w',
    VeilRealState req w = Some ((tok, None), w') /\
    rand_Reader w' = rest /\
    session_data w' (req_Context req) !! tok = Some (Values_Get (URL_Query req) "state").
Proof.
  intros Hne Hlen Hd Hw.
  destruct (spells_total draws Hd) as [cs Hsp].
  eexists _, _. split; [by apply (VeilRealState_ok req w draws cs rest)|].
  split; [done|].
  rewrite session_data_put, decide_True by done. apply lookup_insert_eq.
Qed.

(** X3.  A successful veil writes one session entry and nothing else:
    every other key of the session and every other session read as
    before, in particular an unveil from another session is not
    affected; the trace and the response are untouched. *)
Theorem veil_frame (req : Request) (w : World) (tok : string) (w' : World) :
  VeilRealState req w = Some ((tok, None), w') ->
  (forall ctx k,
      ctx_session ctx <> ctx_session (req_Context req) \/ k <> tok ->
      session_data w' ctx !! k = session_data w ctx !! k) /\
  (forall ctx req',
      ctx_session ctx <> ctx_session (req_Context req) ->
      fst <$> UnveilState ctx req' w' = fst <$> UnveilState ctx req' w) /\
  trace w' = trace w /\ response w' = response w.
Proof.
  intros H.
  apply VeilRealState_inv in H as (draws & cs & _ & _ & _ & _ & _ & Hw').
  assert (forall ctx k,
             ctx_session ctx <> ctx_session (req_Context req) \/ k <> tok ->
             session_data w' ctx !! k = session_data w ctx !! k) as Hframe.
  { intros ctx k Hk. rewrite Hw' at 1. rewrite session_data_put.
    case_decide as Hctx; [|done].
    destruct Hk as [Hk|Hk]; [by destruct Hk|].
    rewrite lookup_insert_ne by done.
    unfold session_data. by rewrite Hctx. }
  split; [done|]. split.
  - intros ctx req' Hctx. rewrite !UnveilState_unfold. cbv zeta.
    destruct (String.eqb _ ""); [done|]. cbn [fmap option_fmap option_map fst].
    by rewrite Hframe by (by left).
  - by rewrite Hw'.
Qed.

(** ** Further properties of the controller *)

Lemma TrimSuffix_slash_app (s : string) : TrimSuffix_slash (s ++ "/") = s.
Proof.
  induction s as [|a s IH]; [done|].
  change (String a s ++ "/") with (String a (s ++ "/")).
  destruct (s ++ "/") as [|b t] eqn:E.
  - destruct s; discriminate.
  - change (TrimSuffix_slash (String a (String b t)))
      with (String a (TrimSuffix_slash (String b t))).
    by rewrite IH.
Qed.

Lemma TrimSuffix_slash_id (s : string) :
  (forall b, s <> b ++ "/") -> TrimSuffix_slash s = s.
Proof.
  induction s as [|a s IH]; intros H; [done|].
  destruct s as [|b t].
  - cbn [TrimSuffix_slash]. destruct (Ascii.eqb_spec a "/") as [->|]; [|done].
    by destruct (H "").
  - change (TrimSuffix_slash (String a (String b t)))
      with (String a (TrimSuffix_slash (String b t))).
    rewrite IH; [done|]. intros b' E. apply (H (String a b')).
    change (String a b' ++ "/") with (String a (b' ++ "/")). by rewrite <- E.
Qed.

(** X4.  The redirect URL has exactly one slash between the base URL
    and the provider segment: one trailing slash of the base URL is
    dropped, a base URL without trailing slash is used as it is. *)
Theorem redirectUrl_base_slash (c : commonController) :
  (forall b, BaseUrl c = b ++ "/" ->
     redirectUrl c =
     b ++ "/" ++ strings_ToLower (config_ServiceProviderType (Config c)) ++ "/callback") /\
  ((forall b, BaseUrl c <> b ++ "/") ->
     redirectUrl c =
     BaseUrl c ++ "/" ++ strings_ToLower (config_ServiceProviderType (Config c)) ++
     "/callback").
Proof.
  unfold redirectUrl. split.
  - intros b ->. by rewrite TrimSuffix_slash_app.
  - intros H. by rewrite TrimSuffix_slash_id.
Qed.

(** X5.  [checkIdentityHasAccess] reports access only on the cluster's
    word: it answers [true] only when the review was created without
    error and came back allowed, and then without error; when the
    creation of the review fails it answers [false] together with an
    error.  The review asks for the verb [create] on
    [spiaccesstokendataupdates] in the namespace of the state. *)
Theorem access_only_on_cluster_word (c : commonController) (token : string)
    (req : Request) (state : AnonymousOAuthState) (w w' : World)
    (allowed : bool) (err : option error) :
  checkIdentityHasAccess c token req state w = Some ((allowed, err), w') ->
  let answer := client_Create (K8sClient c) (WithAuthIntoContext token (req_Context req))
                  (review_for state) in
  (allowed = true ->
   err = None /\ answer.2 = None /\ review_Allowed answer.1 = true) /\
  (answer.2 <> None -> allowed = false /\ err <> None) /\
  ra_Verb (review_Spec (review_for state)) = "create" /\
  ra_Resource (review_Spec (review_for state)) = "spiaccesstokendataupdates" /\
  ra_Namespace (review_Spec (review_for state)) = TokenNamespace state.
Proof.
  unfold checkIdentityHasAccess. fold (review_for state). unfold_run.
  destruct (client_Create _ _ _) as [review [e|]]; cbn [fst snd];
    intros H; simplify_eq; repeat split; try done.
Qed.

(** X6.  When the state unveils and decodes and the bearer token is
    found, [finishOAuthExchange] makes exactly one outgoing call: the
    exchange of the [code] form value, with the [scope] form value, the
    controller's client id and secret, the given endpoint and the
    controller's redirect URL, under the context of the callback.  A
    provider answer without error becomes the authenticated result,
    carrying the decoded state, the provider's token and the bearer
    token; a provider error becomes [oauthFinishError] with the wrapped
    error. *)
Theorem exchange_call (c : commonController) (ctx : Context) (r : Request)
    (endpoint : Endpoint) (w : World) (codec : Codec) (st : exchangeState)
    (k8sToken : string) :
  Values_Get (URL_Query r) "state" <> "" ->
  NewCodec (JwtSigningSecret c) = (codec, None) ->
  ParseInto codec
    (default "" (session_data w ctx !! Values_Get (URL_Query r) "state"))
    zero_exchangeState = (st, None) ->
  GetToken (controller_Authenticator c) r = (k8sToken, None) ->
  let cfg := oauthCfg_with c endpoint [] in
  let answer := provider_Exchange cfg ctx (FormValue r "code") (FormValue r "scope") in
  exists w',
    finishOAuthExchange c ctx r endpoint w =
      Some (match answer.2 with
            | Some e => (exchangeResult_of oauthFinishError,
                         Some (Errorf "failed to finish the OAuth exchange" e))
            | None => (mkExchangeResult st oauthFinishAuthenticated answer.1 k8sToken, None)
            end, w') /\
    trace_since w w' = [EvExchange cfg ctx (FormValue r "code") (FormValue r "scope")] /\
    sessions w' = sessions w /\ response w' = response w.
Proof.
  intros Hne Hnew Hparse Htok cfg answer. subst cfg answer.
  unfold finishOAuthExchange, oauthCfg_with, newOAuth2Config.
  unfold_run. rewrite UnveilState_unfold. cbv zeta.
  destruct (String.eqb_spec (Values_Get (URL_Query r) "state") "") as [|_]; [done|].
  rewrite Hnew, Hparse, Htok.
  cbn [ClientID ClientSecret RedirectURL cfg_Scopes].
  destruct (provider_Exchange _ _ _ _) as [tok [e|]]; cbn [fst snd];
    (eexists; split; [reflexivity|]); by rewrite trace_since_app.
Qed.

(** The run of [syncTokenData] on a result that carries a token. *)
Lemma syncTokenData_run (c : commonController) (ctx : Context)
    (exchange : exchangeResult) (tok : oauth2_Token) (w : World) :
  token exchange = Some tok ->
  let actx := WithAuthIntoContext (authorizationHeader exchange) ctx in
  let st := exchange_AnonymousOAuthState (result_exchangeState exchange) in
  let got := client_Get (K8sClient c) actx (TokenName st) (TokenNamespace st) in
  exists err w',
    syncTokenData c ctx exchange w = Some (err, w') /\
    sessions w' = sessions w /\ response w' = response w /\
    match got.2 with
    | Some e =>
        err = Some (Errorf ("failed to get the SPIAccessToken object " ++
                            TokenNamespace st ++ "/" ++ TokenName st) e) /\
        trace_since w w' = [EvGetAccessToken actx (TokenName st) (TokenNamespace st)]
    | None =>
        trace_since w w' =
          [EvGetAccessToken actx (TokenName st) (TokenNamespace st);
           EvStore actx got.1 (apiToken_of tok)] /\
        err = match storage_Store (controller_TokenStorage c) actx got.1 (apiToken_of tok) with
              | Some e => Some (Errorf "failed to persist the token to storage" e)
              | None => None
              end
    end.
Proof.
  intros Htok actx st got. subst actx st got.
  unfold syncTokenData, apiToken_of. unfold_run. rewrite Htok.
  destruct (client_Get _ _ _ _) as [obj [e|]]; cbn [fst snd].
  - do 2 eexists. split; [reflexivity|]. repeat split. since.
  - destruct (storage_Store _ _ _ _) as [e|];
      (do 2 eexists; split; [reflexivity|]); repeat split; since.
Qed.

(** X7.  [syncTokenData] reaches the cluster and the storage under the
    bearer token of the exchange result, whatever identity its context
    carried.  It first reads the [SPIAccessToken] named by the state
    and stores only after that read succeeded: a failed read is
    returned as the error and nothing is stored.  The session and the
    response are left alone. *)
Theorem syncTokenData_calls (c : commonController) (ctx : Context)
    (exchange : exchangeResult) (tok : oauth2_Token) (w : World) :
  token exchange = Some tok ->
  let actx := WithAuthIntoContext (authorizationHeader exchange) ctx in
  let st := exchange_AnonymousOAuthState (result_exchangeState exchange) in
  exists err w',
    syncTokenData c ctx exchange w = Some (err, w') /\
    Forall (fun ev => event_auth ev = Some (authorizationHeader exchange))
           (trace_since w w') /\
    event_kind <$> trace_since w w' =
      match (client_Get (K8sClient c) actx (TokenName st) (TokenNamespace st)).2 with
      | Some _ => [KGetAccessToken]
      | None => [KGetAccessToken; KStore]
      end /\
    ((client_Get (K8sClient c) actx (TokenName st) (TokenNamespace st)).2 <> None ->
     err <> None) /\
    sessions w' = sessions w /\ response w' = response w.
Proof.
  intros Htok actx st.
  destruct (syncTokenData_run c ctx exchange tok w Htok)
    as (err & w' & Hrun & Hs & Hr & H).
  exists err, w'. split; [done|]. fold actx st in H.
  destruct (client_Get _ _ _ _).2 as [e|].
  - destruct H as [-> ->]. repeat split; try done. by repeat constructor.
  - destruct H as [-> _]. repeat split; try done. by repeat constructor.
Qed.

(** X8.  The token handed to the storage carries the provider's access
    token, token type and refresh token unchanged, and the provider's
    expiry converted to an unsigned 64-bit number: an expiry from 0 up
    is stored as it is, an expiry before the epoch (the zero time of a
    token without expiry is one) is stored as that value plus 2^64. *)
Theorem stored_token (c : commonController) (ctx : Context)
    (exchange : exchangeResult) (t : oauth2_Token) (w w' : World)
    (err : option error) (actx : Context) (obj : SPIAccessToken) (stored : Token) :
  token exchange = Some t ->
  (- 2 ^ 63 <= o_Expiry t < 2 ^ 63)%Z ->
  syncTokenData c ctx exchange w = Some (err, w') ->
  EvStore actx obj stored ∈ trace_since w w' ->
  AccessToken stored = o_AccessToken t /\
  TokenType stored = o_TokenType t /\
  RefreshToken stored = o_RefreshToken t /\
  (0 <= Expiry stored < 2 ^ 64)%Z /\
  (0 <= o_Expiry t -> Expiry stored = o_Expiry t)%Z /\
  (o_Expiry t < 0 -> Expiry stored = o_Expiry t + 2 ^ 64)%Z.
Proof.
  intros Htok Hrange Hrun Hin.
  destruct (syncTokenData_run c ctx exchange t w Htok)
    as (err0 & w0 & Hrun0 & _ & _ & H).
  rewrite Hrun in Hrun0. injection Hrun0 as <- <-.
  assert (stored = apiToken_of t) as ->.
  { destruct (client_Get _ _ _ _).2 as [e|].
    - destruct H as [_ H]. rewrite H in Hin.
      apply list_elem_of_singleton in Hin. discriminate.
    - destruct H as [H _]. rewrite H in Hin.
      apply elem_of_cons in Hin as [Hin|Hin]; [discriminate|].
      apply list_elem_of_singleton in Hin. by injection Hin. }
  unfold apiToken_of. cbn [Expiry AccessToken TokenType RefreshToken].
  do 3 (split; [done|]).
  split; [apply Z.mod_pos_bound; lia|].
  split; [intros; apply Z.mod_small; lia|].
  intros Hneg.
  rewrite <- (Z.mod_add (o_Expiry t) 1 (2 ^ 64)) by lia.
  apply Z.mod_small. lia.
Qed.

(** Membership in an explicit list of outcomes. *)
Ltac among := repeat first [apply list_elem_of_here | apply list_elem_of_further].

(** X9.  [Callback] on the way to a stored token: when the state
    unveils and decodes, the bearer token is found, the provider answers
    the exchange with a token, the [SPIAccessToken] is read and the
    storage accepts, the answer is the redirect that [http.Redirect]
    makes, with status 302, of the [redirect_after_login] form value,
    handed over unchecked, or, when that is empty, of the base URL
    followed by [/callback_success]; the outgoing calls are the
    exchange, the read, the store and one audit entry, in this order. *)
Theorem Callback_stores_and_redirects (c : commonController) (ctx : Context)
    (r : Request) (w : World) (codec : Codec) (st : exchangeState)
    (k8sToken : string) (tok : oauth2_Token) (obj : SPIAccessToken) :
  Values_Get (URL_Query r) "state" <> "" ->
  NewCodec (JwtSigningSecret c) = (codec, None) ->
  ParseInto codec
    (default "" (session_data w ctx !! Values_Get (URL_Query r) "state"))
    zero_exchangeState = (st, None) ->
  GetToken (controller_Authenticator c) r = (k8sToken, None) ->
  let cfg := oauthCfg_with c (controller_Endpoint c) [] in
  let actx := WithAuthIntoContext k8sToken ctx in
  let target := exchange_AnonymousOAuthState st in
  let redirectLocation :=
    if String.eqb (FormValue r "redirect_after_login") ""
    then TrimSuffix_slash (BaseUrl c) ++ "/callback_success"
    else FormValue r "redirect_after_login" in
  provider_Exchange cfg ctx (FormValue r "code") (FormValue r "scope") = (Some tok, None) ->
  client_Get (K8sClient c) actx (TokenName target) (TokenNamespace target) = (obj, None) ->
  storage_Store (controller_TokenStorage c) actx obj (apiToken_of tok) = None ->
  resp_status (response w) = None ->
  exists w',
    Callback c ctx r w = Some (tt, w') /\
    response w' =
      mkResponse (Some StatusFound)
                 (Some (redirect_Location r redirectLocation))
                 (resp_body (response w) ++
                  redirect_body r redirectLocation StatusFound) /\
    trace_since w w' =
      [EvExchange cfg ctx (FormValue r "code") (FormValue r "scope");
       EvGetAccessToken actx (TokenName target) (TokenNamespace target);
       EvStore actx obj (apiToken_of tok);
       EvAudit "OAuth authentication completed successfully"
               (TokenName target) (TokenNamespace target)] /\
    sessions w' = sessions w.
Proof.
  intros Hne Hnew Hparse Htok cfg actx target loc Hex Hget Hstore Hfresh.
  assert (loc = if String.eqb (FormValue r "redirect_after_login") ""
                then TrimSuffix_slash (BaseUrl c) ++ "/" ++ "callback_success"
                else FormValue r "redirect_after_login") as Hloc by reflexivity.
  clearbody loc.
  subst cfg actx target.
  unfold Callback, finishOAuthExchange, syncTokenData, oauthCfg_with, newOAuth2Config,
    apiToken_of in *.
  unfold_run. rewrite UnveilState_unfold. cbv zeta.
  destruct (String.eqb_spec (Values_Get (URL_Query r) "state") "") as [|_]; [done|].
  rewrite Hnew, Hparse, Htok.
  cbn [ClientID ClientSecret RedirectURL cfg_Scopes].
  rewrite Hex.
  cbn [result oauthFinishResult_eqb authorizationHeader result_exchangeState token
       sessions rand_Reader trace response].
  rewrite Hget, Hstore, <- Hloc.
  destruct (String.eqb_spec (redirect_body r loc StatusFound) "") as [Hb|_];
    (eexists; split; [reflexivity|]);
    cbn [response resp_status resp_location resp_body sessions default];
    rewrite Hfresh, ?Hb, ?string_app_nil_r;
    (split; [reflexivity|]); (split; [since | reflexivity]).
Qed.

(** X10.  Every [Callback] that returns has answered 400, 500 or 302,
    and its outgoing calls are a prefix of exchange, read, store, audit:
    400 with no call or with the exchange alone, 500 with the read or
    the store as the last call, 302 with all four.  The calls follow
    from the answers: an exchange followed by 400 is one that the
    provider answered with an error; the [SPIAccessToken] is read only
    after the provider answered the exchange without error; the token
    is stored only after the provider answered with a token and the
    read came back without error, and what is stored is the provider's
    token on the object read; and the answer is 302 exactly when the
    storage accepted. *)
#[local] Set Warnings "-clear-no-such-hyp".


(** X11.  [Callback] never writes to the session store and never reads
    the random source: whatever its outcome, every session entry,
    the veiled state it just used included, unveils afterwards as it
    did before. *)
Theorem Callback_keeps_sessions (c : commonController) (ctx : Context) (r : Request)
    (w w' : World) :
  Callback c ctx r w = Some (tt, w') ->
  sessions w' = sessions w /\
  rand_Reader w' = rand_Reader w /\
  (forall ctx' r', fst <$> UnveilState ctx' r' w' = fst <$> UnveilState ctx' r' w).
Proof.
  intros H.
  assert (sessions w' = sessions w /\ rand_Reader w' = rand_Reader w) as [Hs Hr].
  { revert H. unfold Callback, finishOAuthExchange, syncTokenData.
    unfold_run. rewrite UnveilState_unfold. cbv zeta. intros H.
    repeat (case_match; simplify_eq;
            cbn [sessions rand_Reader trace response] in * ); done. }
  repeat split; [done | done |].
  intros ctx' r'. rewrite !UnveilState_unfold. cbv zeta.
  destruct (String.eqb _ ""); [done|].
  cbn [fmap option_fmap option_map fst]. unfold session_data. by rewrite Hs.
Qed.

(** X12.  [Authenticate] turns a request down before any veil is made:
    with 500 when the codec cannot be created, 400 when the state does
    not decode, 401 when no bearer token is found, 500 when the access
    review cannot be created and 401 when the cluster denies access.
    In all five cases the session store and the random source are left
    as they were, and the only outgoing call is the access review in
    the last two. *)
Theorem Authenticate_rejections (c : commonController) (r : Request) (w : World) :
  resp_status (response w) = None ->
  match NewCodec (JwtSigningSecret c) with
  | (_, Some _) => rejected c r w StatusInternalServerError []
  | (codec, None) =>
      match ParseAnonymous codec (FormValue r "state") with
      | (_, Some _) => rejected c r w StatusBadRequest []
      | (state, None) =>
          match GetToken (controller_Authenticator c) r with
          | (_, Some _) => rejected c r w StatusUnauthorized []
          | (token, None) =>
              match client_Create (K8sClient c)
                      (WithAuthIntoContext token (req_Context r)) (review_for state) with
              | (_, Some _) => rejected c r w StatusInternalServerError [KCreateReview]
              | (review, None) =>
                  review_Allowed review = false ->
                  rejected c r w StatusUnauthorized [KCreateReview]
              end
          end
      end
  end.
Proof.
  intros Hfresh. unfold rejected, Authenticate, checkIdentityHasAccess.
  fold review_for. unfold review_for. unfold_run.
  destruct (NewCodec _) as [codec [e|]].
  { eexists. split; [reflexivity|]. cbn [response resp_status sessions rand_Reader].
    rewrite Hfresh. repeat split. since. }
  destruct (ParseAnonymous _ _) as [state [e|]].
  { eexists. split; [reflexivity|]. cbn [response resp_status sessions rand_Reader].
    rewrite Hfresh. repeat split. since. }
  destruct (GetToken _ _) as [token [e|]].
  { eexists. split; [reflexivity|]. cbn [response resp_status sessions rand_Reader].
    rewrite Hfresh. repeat split. since. }
  destruct (client_Create _ _ _) as [review [e|]].
  { eexists. split; [reflexivity|]. cbn [response resp_status sessions rand_Reader].
    rewrite Hfresh. repeat split. since. }
  intros ->. cbn [negb].
  eexists. split; [reflexivity|]. cbn [response resp_status sessions rand_Reader].
  rewrite Hfresh. repeat split. since.
Qed.

(** X13.  [Authenticate] never reaches the provider's token endpoint,
    the [SPIAccessToken] object or the token storage: its outgoing
    calls are at most the access review followed by one audit entry.
    And it writes to the session store, reads the random source or
    writes the audit entry only after the cluster allowed the access
    under the bearer token of the request. *)
Theorem Authenticate_gate (c : commonController) (r : Request) (w w' : World) :
  Authenticate c r w = Some (tt, w') ->
  event_kind <$> trace_since w w' ∈
    [[]; [KCreateReview]; [KCreateReview; KAudit]] /\
  (sessions w' <> sessions w \/ rand_Reader w' <> rand_Reader w \/
   KAudit ∈ (event_kind <$> trace_since w w') ->
   exists token state review,
     reaches_gate c r = Some (token, state) /\
     client_Create (K8sClient c) (WithAuthIntoContext token (req_Context r))
       (review_for state) = (review, None) /\
     review_Allowed review = true).
Proof.
  unfold Authenticate, reaches_gate, checkIdentityHasAccess.
  fold review_for. unfold review_for. unfold_run.
  destruct (NewCodec _) as [codec [e|]].
  { intros [= <-]. split; [since; among|].
    intros [H|[H|H]]; [done | done |]. exfalso. revert H. since. intros H.
    by apply elem_of_nil in H. }
  destruct (ParseAnonymous _ _) as [state [e|]].
  { intros [= <-]. split; [since; among|].
    intros [H|[H|H]]; [done | done |]. exfalso. revert H. since. intros H.
    by apply elem_of_nil in H. }
  destruct (GetToken _ _) as [token [e|]].
  { intros [= <-]. split; [since; among|].
    intros [H|[H|H]]; [done | done |]. exfalso. revert H. since. intros H.
    by apply elem_of_nil in H. }
  cbn [sessions rand_Reader trace response].
  destruct (client_Create _ _ _) as [review [e|]] eqn:Hcreate.
  { intros [= <-]. split; [since; among|].
    intros [H|[H|H]]; [done | done |]. exfalso. revert H. since. intros H.
    apply list_elem_of_singleton in H. discriminate. }
  destruct (review_Allowed review) eqn:Hallowed; cbn [negb].
  2:{ intros [= <-]. split; [since; among|].
      intros [H|[H|H]]; [done | done |]. exfalso. revert H. since. intros H.
      apply list_elem_of_singleton in H. discriminate. }
  intros Hrun. split; [|intros _; by exists token, state, review].
  revert Hrun. cbn [sessions rand_Reader trace response].
  match goal with |- context [VeilRealState r ?w0] =>
    destruct (VeilRealState r w0) as [[[tok e] w1]|] eqn:Hv; [|done] end.
  apply VeilRealState_trace in Hv. cbn [trace] in Hv.
  destruct e as [e|].
  { intros [= <-]. unfold trace_since. cbn [trace]. rewrite Hv. since. among. }
  cbn [fst snd].
  match goal with |- context [RedirectTemplate c ?u] =>
    destruct (RedirectTemplate c u) as [out terr] end.
  cbn [fst snd].
  destruct (String.eqb out ""), terr; intros [= <-]; unfold trace_since;
    cbn [trace]; rewrite Hv; since; among.
Qed.


(** X15.  The status of the callback error page: 200 when the template
    succeeds; 500 with the plain-text fallback when the template fails
    before writing anything; and still 200 when the template fails
    after it has written part of the page, because the status line went
    out with the first byte. *)
Theorem error_page_status (tmpl : viewData -> string * option error)
    (r : Request) (w : World) :
  callback_error_html = Some tmpl ->
  resp_status (response w) = None ->
  let data := mkViewData (Values_Get (URL_Query r) "error")
                         (Values_Get (URL_Query r) "error_description") in
  exists w',
    CallbackErrorHandler r w = Some (tt, w') /\
    resp_status (response w') =
      Some (match (tmpl data).2 with
            | None => StatusOK
            | Some _ =>
                if String.eqb (tmpl data).1 "" then StatusInternalServerError
                else StatusOK
            end).
Proof.
  intros Htmpl Hfresh data. unfold CallbackErrorHandler. rewrite Htmpl. fold data.
  unfold_run.
  destruct (tmpl data) as [out [e|]]; cbn [fst snd];
    destruct (String.eqb out "");
    (eexists; split; [reflexivity|]);
    cbn [response resp_status]; rewrite Hfresh; reflexivity.
Qed.

(** ** Properties of the upload handler *)

(** X16.  [HandleUpload] hands a token to the uploader at most once,
    and only a token that decoded from the body without error and has a
    non-empty access token, for a non-empty name and namespace taken
    from the route, under the context that carries the authorization of
    the request.  A request whose authorization cannot be extracted
    never reaches the uploader. *)
Theorem upload_only_valid (uploader : TokenUploader) (ur : UploadRequest)
    (u u' : UploadWorld) :
  HandleUpload uploader ur u = Some u' ->
  length (calls_since u u') <= 1 /\
  forall call, call ∈ calls_since u u' ->
    call_name call <> "" /\ call_namespace call <> "" /\
    AccessToken (call_data call) <> "" /\
    mux_Vars ur !! "name" = Some (call_name call) /\
    mux_Vars ur !! "namespace" = Some (call_namespace call) /\
    WithAuthFromRequestIntoContext (up_Request ur) (req_Context (up_Request ur)) =
      (call_ctx call, None) /\
    json_Decode (Body ur) (mkToken "" "" "" 0) = (call_data call, None).
Proof.
  unfold HandleUpload, respond, calls_since. unfold_run.
  assert (forall o : option string, default "" o <> "" -> o = Some (default "" o)) as Hdef.
  { by intros [x|]. }
  assert (forall s : string, Nat.ltb (String.length s) 1 = false -> s <> "") as Hlen.
  { intros s0 L%Nat.ltb_ge ->. simpl in L. lia. }
  destruct (WithAuthFromRequestIntoContext _ _) as [ctx [e|]].
  { intros [= <-]. cbn [up_calls]. rewrite drop_all. split; [simpl; lia|].
    intros call H. by apply elem_of_nil in H. }
  destruct (Nat.ltb (String.length (default "" (mux_Vars ur !! "name"))) 1) eqn:Ln;
    cbn [orb].
  { intros [= <-]. cbn [up_calls]. rewrite drop_all. split; [simpl; lia|].
    intros call H. by apply elem_of_nil in H. }
  destruct (Nat.ltb (String.length (default "" (mux_Vars ur !! "namespace"))) 1) eqn:Lns.
  { intros [= <-]. cbn [up_calls]. rewrite drop_all. split; [simpl; lia|].
    intros call H. by apply elem_of_nil in H. }
  apply Hlen in Ln, Lns.
  destruct (json_Decode _ _) as [data [e|]].
  { intros [= <-]. cbn [up_calls]. rewrite drop_all. split; [simpl; lia|].
    intros call H. by apply elem_of_nil in H. }
  destruct (String.eqb_spec (AccessToken data) "") as [|Hat].
  { intros [= <-]. cbn [up_calls]. rewrite drop_all. split; [simpl; lia|].
    intros call H. by apply elem_of_nil in H. }
  destruct (Upload uploader ctx _ _ data) as [e|]; intros [= <-];
    cbn [up_calls]; rewrite drop_app_length; (split; [simpl; lia|]);
    intros call ->%list_elem_of_singleton;
    cbn [call_name call_namespace call_data call_ctx];
    repeat split; try done; by apply Hdef.
Qed.

(** X17.  The answer of [HandleUpload] on a fresh response writer is
    401, 500, 400 or 204, and it is 204 exactly when the uploader was
    called and returned no error; an upload that failed is answered
    with 500. *)
Theorem upload_status (uploader : TokenUploader) (ur : UploadRequest)
    (u u' : UploadWorld) :
  HandleUpload uploader ur u = Some u' ->
  resp_status (response (up_world u)) = None ->
  resp_status (response (up_world u')) ∈
    [Some StatusUnauthorized; Some StatusInternalServerError; Some StatusBadRequest;
     Some StatusNoContent] /\
  (resp_status (response (up_world u')) = Some StatusNoContent <->
   exists call,
     calls_since u u' = [call] /\
     Upload uploader (call_ctx call) (call_name call) (call_namespace call)
       (call_data call) = None) /\
  (forall call e,
     calls_since u u' = [call] ->
     Upload uploader (call_ctx call) (call_name call) (call_namespace call)
       (call_data call) = Some e ->
     resp_status (response (up_world u')) = Some StatusInternalServerError).
Proof.
  unfold HandleUpload, respond, calls_since. unfold_run. intros H Hfresh. revert H.
  assert (forall l : list UploadCall, ~ exists call : UploadCall, drop (length l) l = [call] /\
             Upload uploader (call_ctx call) (call_name call) (call_namespace call)
               (call_data call) = None) as Hnone.
  { intros l (call & E & _). rewrite drop_all in E. discriminate. }
  assert (forall (l : list UploadCall) call,
             drop (length l) l = [call] -> False) as Hnocall.
  { intros l call E. rewrite drop_all in E. discriminate. }
  destruct (WithAuthFromRequestIntoContext _ _) as [ctx [e|]].
  { intros [= <-]. cbn [up_world up_calls response resp_status]. rewrite Hfresh.
    split; [among|]. split; [split; [discriminate | by intros ?%Hnone]|].
    intros call e' E. by apply Hnocall in E. }
  destruct (Nat.ltb (String.length (default "" (mux_Vars ur !! "name"))) 1 ||
            Nat.ltb (String.length (default "" (mux_Vars ur !! "namespace"))) 1).
  { intros [= <-]. cbn [up_world up_calls response resp_status]. rewrite Hfresh.
    split; [among|]. split; [split; [discriminate | by intros ?%Hnone]|].
    intros call e' E. by apply Hnocall in E. }
  destruct (json_Decode _ _) as [data [e|]].
  { intros [= <-]. cbn [up_world up_calls response resp_status]. rewrite Hfresh.
    split; [among|]. split; [split; [discriminate | by intros ?%Hnone]|].
    intros call e' E. by apply Hnocall in E. }
  destruct (String.eqb (AccessToken data) "").
  { intros [= <-]. cbn [up_world up_calls response resp_status]. rewrite Hfresh.
    split; [among|]. split; [split; [discriminate | by intros ?%Hnone]|].
    intros call e' E. by apply Hnocall in E. }
  destruct (Upload uploader ctx _ _ data) as [e|] eqn:Hup; intros [= <-];
    cbn [up_world up_calls response resp_status]; rewrite Hfresh, drop_app_length;
    cbn [default].
  - split; [among|]. split; [|done].
    split; [discriminate|]. intros (call & [= <-] & Hc). cbn in Hc. congruence.
  - split; [among|]. split.
    + split; [|done]. intros _. eexists. split; [reflexivity|]. by cbn.
    + intros call e' [= <-]. cbn. congruence.
Qed.

End Controller.

(** ** The handlers on the test doubles *)

Abbreviation dbl_Authenticate :=
  (Authenticate Doubles.NewCodec Doubles.AuthCodeURL Doubles.strings_ToLower
     Doubles.GroupVersion Doubles.controller).
Abbreviation dbl_Callback :=
  (Callback Doubles.NewCodec Doubles.provider_Exchange Doubles.strings_ToLower
     Doubles.redirect_Location Doubles.redirect_body Doubles.controller).
Abbreviation dbl_finishOAuthExchange :=
  (finishOAuthExchange Doubles.NewCodec Doubles.provider_Exchange Doubles.strings_ToLower
     Doubles.controller).
Abbreviation dbl_CallbackErrorHandler :=
  (CallbackErrorHandler (Some Doubles.error_page)).

(** A session that holds one veiled state. *)
Abbreviation veiled_world := (Doubles.world_with "veil" "signed.tok1.state").

(** A source that answers 32 draws. *)
Abbreviation fresh_world := (Doubles.world (Some <$> Doubles.draws32)).

(** A source that answers one draw and then fails. *)
Abbreviation failing_world := (Doubles.world [Some 3; None]).

(** *** C1 *)

(** A callback with a state that the session does not hold. *)
Lemma forged_state_rejected_witness :
  exists res e w',
    dbl_finishOAuthExchange Doubles.ctx0 (Doubles.callback_request "forged")
      (controller_Endpoint Doubles.controller) veiled_world
    = Some ((res, Some e), w') /\
    result res = oauthFinishError /\ token res = None /\
    filter (fun ev => is_Exchange ev) (trace_since veiled_world w') = [] /\
    w' = veiled_world.
Proof.
  apply forged_state_rejected.
  - vm_compute. reflexivity.
  - intros codec dest H. injection H as <-. simpl.
    destruct (String.eqb_spec "" "signed.tok1.state"); [discriminate | simpl; discriminate].
Defined.

(** *** C2 *)

(** C2, as stated, fails: a callback that completes the exchange and
    is redirected to the success page has created no access review. *)
Lemma Callback_creates_no_review :
  dbl_Callback Doubles.ctx0 (Doubles.callback_request "veil") veiled_world =
    Some (tt, final (dbl_Callback Doubles.ctx0 (Doubles.callback_request "veil"))
                veiled_world) /\
  resp_status (response (final (dbl_Callback Doubles.ctx0 (Doubles.callback_request "veil"))
                               veiled_world)) = Some StatusFound /\
  length (filter (fun ev => is_CreateReview ev)
            (trace_since veiled_world
               (final (dbl_Callback Doubles.ctx0 (Doubles.callback_request "veil"))
                      veiled_world))) = 0.
Proof. vm_compute. repeat split. Qed.

Lemma access_gate_calls_witness :
  filter (fun ev => is_CreateReview ev)
    (trace_since fresh_world (final (dbl_Authenticate Doubles.veil_request) fresh_world)) =
    [EvCreateReview (mkContext 7 (Some "alice"))
       (review_for Doubles.GroupVersion Doubles.tok1_state)] /\
  filter (fun ev => is_CreateReview ev)
    (trace_since veiled_world
       (final (dbl_Callback Doubles.ctx0 (Doubles.callback_request "veil")) veiled_world)) = [].
Proof.
  destruct (access_gate_calls Doubles.NewCodec Doubles.AuthCodeURL Doubles.provider_Exchange
              Doubles.strings_ToLower Doubles.GroupVersion Doubles.redirect_Location
              Doubles.redirect_body Doubles.controller) as [HA HC].
  split.
  - etrans; [apply (HA Doubles.veil_request); vm_compute; reflexivity
            | vm_compute; reflexivity].
  - apply HC with (ctx := Doubles.ctx0) (r := Doubles.callback_request "veil").
    vm_compute. reflexivity.
Defined.

(** *** C4 *)

(** C4, as stated, fails: a 32-character state over the alphabet and a
    source whose draws spell it give a veiled token equal to the state. *)
Lemma veiled_token_equals_state :
  Values_Get (URL_Query (Doubles.request [("state", Doubles.a32)])) "state" <> "" /\
  fst <$> VeilRealState (Doubles.request [("state", Doubles.a32)])
            (Doubles.world (repeat (Some 0) 32)) =
  Some (Values_Get (URL_Query (Doubles.request [("state", Doubles.a32)])) "state", None).
Proof. split; [vm_compute; discriminate | vm_compute; reflexivity]. Qed.

Lemma veil_unveil_roundtrip_witness :
  Values_Get (URL_Query Doubles.veil_request) "state" <> "" /\
  UnveilState Doubles.ctx0 (Doubles.callback_request "abcdefghijklmnopqrstuvwxyz123456")
    (final (VeilRealState Doubles.veil_request) fresh_world) =
    Some ((Values_Get (URL_Query Doubles.veil_request) "state", None),
          final (VeilRealState Doubles.veil_request) fresh_world) /\
  (String.length (Values_Get (URL_Query Doubles.veil_request) "state") <> 32 \/
   ~ Forall in_alphabet
       (list_ascii_of_string (Values_Get (URL_Query Doubles.veil_request) "state")) ->
   "abcdefghijklmnopqrstuvwxyz123456" <> Values_Get (URL_Query Doubles.veil_request) "state").
Proof.
  apply (veil_unveil_roundtrip Doubles.veil_request fresh_world
           "abcdefghijklmnopqrstuvwxyz123456"
           (final (VeilRealState Doubles.veil_request) fresh_world)
           Doubles.ctx0 (Doubles.callback_request "abcdefghijklmnopqrstuvwxyz123456")).
  - vm_compute. reflexivity.
  - reflexivity.
  - vm_compute. reflexivity.
Defined.

(** *** C5 *)

(** C5: the code at a callback whose state unveils and decodes and
    whose bearer token is missing.  The exchange result is
    [oauthFinishK8sAuthRequired] and no outgoing call is made, but the
    result comes with a non-nil error, so [Callback] answers [400]
    where the claim says [401]. *)
Theorem Callback_missing_bearer_answer :
  dbl_finishOAuthExchange Doubles.ctx0 (Doubles.anonymous_callback_request "veil")
    (controller_Endpoint Doubles.controller) veiled_world =
    Some ((exchangeResult_of oauthFinishK8sAuthRequired, Some noActiveSessionError),
          veiled_world) /\
  dbl_Callback Doubles.ctx0 (Doubles.anonymous_callback_request "veil") veiled_world =
    Some (tt, final (dbl_Callback Doubles.ctx0 (Doubles.anonymous_callback_request "veil"))
                veiled_world) /\
  resp_status (response (final (dbl_Callback Doubles.ctx0
                                  (Doubles.anonymous_callback_request "veil"))
                               veiled_world)) = Some StatusBadRequest /\
  trace (final (dbl_Callback Doubles.ctx0 (Doubles.anonymous_callback_request "veil"))
               veiled_world) = [].
Proof. vm_compute. repeat split. Qed.

(** *** C6 *)

Lemma missing_state_outcomes_witness :
  VeilRealState (Doubles.request [("code", "good-code")]) fresh_world =
    Some (("", Some noStateError), fresh_world) /\
  UnveilState Doubles.ctx0 (Doubles.request [("code", "good-code")]) veiled_world =
    Some (("", Some noStateError), veiled_world) /\
  UnveilState Doubles.ctx0 (Doubles.callback_request "garbage") veiled_world =
    Some (("", None), veiled_world).
Proof.
  destruct missing_state_outcomes as (HV & HU & HA).
  split; [|split].
  - apply HV. vm_compute. reflexivity.
  - apply HU. vm_compute. reflexivity.
  - apply HA; [vm_compute; discriminate | vm_compute; reflexivity].
Defined.

(** *** C7 *)

(** C7, as stated, fails: the source fails during the veiling step of
    an authorized [Authenticate], and the answer is [400], not [500]. *)
Lemma Authenticate_veil_failure_status :
  dbl_Authenticate Doubles.veil_request failing_world =
    Some (tt, final (dbl_Authenticate Doubles.veil_request) failing_world) /\
  fst <$> VeilRealState Doubles.veil_request failing_world =
    Some ("", Some randomStringGenerationError) /\
  resp_status (response (final (dbl_Authenticate Doubles.veil_request) failing_world)) =
    Some StatusBadRequest /\
  resp_status (response (final (dbl_Authenticate Doubles.veil_request) failing_world)) <>
    Some StatusInternalServerError.
Proof. vm_compute. repeat split. discriminate. Qed.

Lemma veil_failure_answer_witness :
  exists w',
    dbl_Authenticate Doubles.veil_request failing_world = Some (tt, w') /\
    resp_status (response w') = Some StatusBadRequest /\
    resp_body (response w') =
      resp_body (response failing_world) ++ error_Error randomStringGenerationError /\
    sessions w' = sessions failing_world /\
    filter (fun ev => is_Exchange ev) (trace_since failing_world w') = [].
Proof.
  apply (veil_failure_answer Doubles.NewCodec Doubles.AuthCodeURL Doubles.strings_ToLower
           Doubles.GroupVersion Doubles.controller Doubles.veil_request failing_world
           "alice" Doubles.tok1_state
           (mkReview (review_Spec (review_for Doubles.GroupVersion Doubles.tok1_state)) true)
           [3] ["d"%char] [None]).
  - vm_compute. reflexivity.
  - vm_compute. reflexivity.
  - reflexivity.
  - vm_compute. discriminate.
  - simpl. lia.
  - repeat constructor.
  - reflexivity.
  - right. by eexists.
  - reflexivity.
Defined.

(** *** C8 *)

Lemma unveil_keeps_entry_witness :
  UnveilState Doubles.ctx0 (Doubles.callback_request "veil") veiled_world =
    Some (("signed.tok1.state", None), veiled_world) /\
  (UnveilState Doubles.ctx0 (Doubles.callback_request "veil");;
   UnveilState Doubles.ctx0 (Doubles.callback_request "veil")) veiled_world =
    Some (("signed.tok1.state", None), veiled_world).
Proof.
  apply unveil_keeps_entry; [vm_compute; discriminate | vm_compute; reflexivity].
Defined.

(** *** C9 *)

Lemma veiled_state_shape_witness :
  (String.length "abcdefghijklmnopqrstuvwxyz123456" = 32 /\
   Forall in_alphabet (list_ascii_of_string "abcdefghijklmnopqrstuvwxyz123456") /\
   exists draws,
     rand_Reader fresh_world =
       ((Some <$> draws) ++
        rand_Reader (final (VeilRealState Doubles.veil_request) fresh_world))%list /\
     length draws = 32 /\
     Forall (fun d => d < String.length letterBytes) draws /\
     spells draws (list_ascii_of_string "abcdefghijklmnopqrstuvwxyz123456")) /\
  (exists tok w',
     VeilRealState Doubles.veil_request (Doubles.world (Some <$> Doubles.draws_down)) =
       Some ((tok, None), w') /\
     spells Doubles.draws_down (list_ascii_of_string tok) /\
     rand_Reader w' = []) /\
  is_Some (VeilRealState Doubles.veil_request (Doubles.world [Some 36])).
Proof.
  destruct veiled_state_shape as (_ & _ & Htotal & Hshape & Hreach & _).
  split; [|split].
  - apply (Hshape Doubles.veil_request fresh_world
             "abcdefghijklmnopqrstuvwxyz123456"
             (final (VeilRealState Doubles.veil_request) fresh_world)).
    vm_compute. reflexivity.
  - apply (Hreach Doubles.veil_request
             (Doubles.world (Some <$> Doubles.draws_down)) Doubles.draws_down []).
    + vm_compute. discriminate.
    + reflexivity.
    + apply (bool_decide_unpack _). vm_compute. reflexivity.
    + vm_compute. reflexivity.
  - apply Htotal.
Defined.

(** *** C10 *)

(** C10, as stated, fails: a request whose [error] is
    [access_denied] and whose [error_description] is [<b>denied</b>]
    gets a page that shows these very values, the first as it came and
    the second with its markup characters escaped by the template; and
    when the template fails before writing, the plain-text fallback
    carries both values exactly as they came. *)
Lemma error_page_shows_raw_query :
  Values_Get (URL_Query Doubles.error_request) "error" = "access_denied" /\
  Values_Get (URL_Query Doubles.error_request) "error_description" = "<b>denied</b>" /\
  response (final (dbl_CallbackErrorHandler Doubles.error_request) (Doubles.world [])) =
    mkResponse (Some StatusOK) None
      "<h1>access_denied</h1><p>&lt;b&gt;denied&lt;/b&gt;</p>" /\
  response (final (CallbackErrorHandler (Some Doubles.broken_page) Doubles.error_request)
                  (Doubles.world [])) =
    mkResponse (Some StatusInternalServerError) None
      "Error response returned to OAuth callback: access_denied. Message: <b>denied</b> ".
Proof. vm_compute. repeat split. Qed.

Lemma error_page_echoes_query_witness :
  exists w',
    dbl_CallbackErrorHandler Doubles.error_request (Doubles.world []) = Some (tt, w') /\
    resp_body (response w') =
      "<h1>access_denied</h1><p>&lt;b&gt;denied&lt;/b&gt;</p>".
Proof.
  destruct (error_page_echoes_query (Some Doubles.error_page) Doubles.error_page eq_refl)
    as [H _].
  destruct (H Doubles.error_request (Doubles.world [])) as (w' & Hrun & _ & _ & Hbody).
  exists w'. split; [exact Hrun|]. rewrite Hbody. vm_compute. reflexivity.
Defined.

(** ** The further properties on the test doubles *)

Abbreviation dbl_checkIdentityHasAccess :=
  (checkIdentityHasAccess Doubles.GroupVersion Doubles.controller).
Abbreviation dbl_HandleUpload :=
  (HandleUpload Doubles.WithAuthFromRequestIntoContext Doubles.json_Decode Doubles.uploader).

(** A source that answers 32 draws and then fails. *)
Abbreviation short_world := (Doubles.world ((Some <$> Doubles.draws32) ++ [None])).

(** The callback of the test session, and the world it ends in. *)
Abbreviation good_callback := (Doubles.callback_request "veil").
Abbreviation after_callback := (final (dbl_Callback Doubles.ctx0 good_callback) veiled_world).

Lemma same_token_same_draws_witness :
  take 32 (rand_Reader fresh_world) = take 32 (rand_Reader short_world).
Proof.
  apply (same_token_same_draws Doubles.veil_request
           (Doubles.request [("state", "another.state")]) fresh_world short_world
           (final (VeilRealState Doubles.veil_request) fresh_world)
           (final (VeilRealState (Doubles.request [("state", "another.state")])) short_world)
           "abcdefghijklmnopqrstuvwxyz123456");
    vm_compute; reflexivity.
Defined.

Lemma veil_returns_witness :
  exists tok w',
    VeilRealState Doubles.veil_request short_world = Some ((tok, None), w') /\
    rand_Reader w' = [None] /\
    session_data w' (req_Context Doubles.veil_request) !! tok =
      Some (Values_Get (URL_Query Doubles.veil_request) "state").
Proof.
  apply (veil_returns Doubles.veil_request short_world Doubles.draws32 [None]).
  - vm_compute. discriminate.
  - reflexivity.
  - vm_compute. repeat constructor.
  - reflexivity.
Defined.

Lemma veil_frame_witness :
  (forall ctx k,
      ctx_session ctx <> ctx_session (req_Context Doubles.veil_request) \/
      k <> "abcdefghijklmnopqrstuvwxyz123456" ->
      session_data (final (VeilRealState Doubles.veil_request) fresh_world) ctx !! k =
      session_data fresh_world ctx !! k) /\
  (forall ctx req',
      ctx_session ctx <> ctx_session (req_Context Doubles.veil_request) ->
      fst <$> UnveilState ctx req' (final (VeilRealState Doubles.veil_request) fresh_world) =
      fst <$> UnveilState ctx req' fresh_world) /\
  trace (final (VeilRealState Doubles.veil_request) fresh_world) = trace fresh_world /\
  response (final (VeilRealState Doubles.veil_request) fresh_world) = response fresh_world.
Proof.
  apply (veil_frame Doubles.veil_request fresh_world "abcdefghijklmnopqrstuvwxyz123456").
  vm_compute. reflexivity.
Defined.

Lemma redirectUrl_base_slash_witness :
  redirectUrl Doubles.strings_ToLower Doubles.controller = "https://spi/github/callback" /\
  redirectUrl Doubles.strings_ToLower Doubles.bare_controller = "https://spi/github/callback".
Proof.
  split.
  - apply (proj1 (redirectUrl_base_slash Doubles.strings_ToLower Doubles.controller)
             "https://spi").
    reflexivity.
  - apply (proj2 (redirectUrl_base_slash Doubles.strings_ToLower Doubles.bare_controller)).
    intros b E. cbn in E.
    do 11 (destruct b as [|? b]; [discriminate | injection E as _ E]).
    destruct b; discriminate.
Defined.

Lemma access_only_on_cluster_word_witness :
  (true = true ->
   @None error = None /\
   (client_Create Doubles.client (WithAuthIntoContext "alice" Doubles.ctx0)
      (review_for Doubles.GroupVersion Doubles.tok1_state)).2 = None /\
   review_Allowed
     (client_Create Doubles.client (WithAuthIntoContext "alice" Doubles.ctx0)
        (review_for Doubles.GroupVersion Doubles.tok1_state)).1 = true) /\
  ((client_Create Doubles.client (WithAuthIntoContext "alice" Doubles.ctx0)
      (review_for Doubles.GroupVersion Doubles.tok1_state)).2 <> None ->
   true = false /\ @None error <> None) /\
  ra_Verb (review_Spec (review_for Doubles.GroupVersion Doubles.tok1_state)) = "create" /\
  ra_Resource (review_Spec (review_for Doubles.GroupVersion Doubles.tok1_state)) =
    "spiaccesstokendataupdates" /\
  ra_Namespace (review_Spec (review_for Doubles.GroupVersion Doubles.tok1_state)) =
    TokenNamespace Doubles.tok1_state.
Proof.
  apply (access_only_on_cluster_word Doubles.GroupVersion Doubles.controller "alice"
           Doubles.veil_request Doubles.tok1_state fresh_world
           (final (dbl_checkIdentityHasAccess "alice" Doubles.veil_request Doubles.tok1_state)
                  fresh_world) true None).
  vm_compute. reflexivity.
Defined.

Lemma exchange_call_witness :
  exists w',
    dbl_finishOAuthExchange Doubles.ctx0 good_callback
      (controller_Endpoint Doubles.controller) veiled_world =
      Some ((mkExchangeResult (mkExchangeState Doubles.tok1_state) oauthFinishAuthenticated
               (Some Doubles.provider_token) "alice", None), w') /\
    trace_since veiled_world w' =
      [EvExchange
         (oauthCfg_with Doubles.strings_ToLower Doubles.controller
            (controller_Endpoint Doubles.controller) [])
         Doubles.ctx0 "good-code" ""] /\
    sessions w' = sessions veiled_world /\ response w' = response veiled_world.
Proof.
  apply (exchange_call Doubles.NewCodec Doubles.provider_Exchange Doubles.strings_ToLower
           Doubles.controller Doubles.ctx0 good_callback
           (controller_Endpoint Doubles.controller) veiled_world Doubles.codec
           (mkExchangeState Doubles.tok1_state) "alice").
  - vm_compute. discriminate.
  - reflexivity.
  - vm_compute. reflexivity.
  - vm_compute. reflexivity.
Defined.

Lemma syncTokenData_calls_witness :
  exists err w',
    syncTokenData Doubles.controller Doubles.ctx0 Doubles.exchanged veiled_world =
      Some (err, w') /\
    Forall (fun ev => event_auth ev = Some "alice") (trace_since veiled_world w') /\
    event_kind <$> trace_since veiled_world w' = [KGetAccessToken; KStore] /\
    ((client_Get Doubles.client (WithAuthIntoContext "alice" Doubles.ctx0) "tok1" "ns1").2
       <> None -> err <> None) /\
    sessions w' = sessions veiled_world /\ response w' = response veiled_world.
Proof.
  apply (syncTokenData_calls Doubles.controller Doubles.ctx0 Doubles.exchanged
           Doubles.provider_token veiled_world).
  reflexivity.
Defined.

Lemma stored_token_witness :
  AccessToken (apiToken_of Doubles.token_without_expiry) = "access-2" /\
  TokenType (apiToken_of Doubles.token_without_expiry) = "bearer" /\
  RefreshToken (apiToken_of Doubles.token_without_expiry) = "" /\
  (0 <= Expiry (apiToken_of Doubles.token_without_expiry) < 2 ^ 64)%Z /\
  (0 <= -62135596800 ->
   Expiry (apiToken_of Doubles.token_without_expiry) = -62135596800)%Z /\
  (-62135596800 < 0 ->
   Expiry (apiToken_of Doubles.token_without_expiry) = -62135596800 + 2 ^ 64)%Z.
Proof.
  apply (stored_token Doubles.controller Doubles.ctx0
           (mkExchangeResult (mkExchangeState Doubles.tok1_state) oauthFinishAuthenticated
              (Some Doubles.token_without_expiry) "alice")
           Doubles.token_without_expiry veiled_world
           (final (syncTokenData Doubles.controller Doubles.ctx0
                     (mkExchangeResult (mkExchangeState Doubles.tok1_state)
                        oauthFinishAuthenticated (Some Doubles.token_without_expiry) "alice"))
                  veiled_world)
           None (WithAuthIntoContext "alice" Doubles.ctx0)
           (mkSPIAccessToken "tok1" "ns1")).
  - reflexivity.
  - vm_compute. split; [discriminate | reflexivity].
  - vm_compute. reflexivity.
  - vm_compute. apply list_elem_of_further, list_elem_of_here.
Defined.

Lemma Callback_stores_and_redirects_witness :
  exists w',
    dbl_Callback Doubles.ctx0 good_callback veiled_world = Some (tt, w') /\
    response w' =
      mkResponse (Some StatusFound) (Some "https://spi/callback_success")
        (Doubles.redirect_body good_callback "https://spi/callback_success" StatusFound) /\
    trace_since veiled_world w' =
      [EvExchange
         (oauthCfg_with Doubles.strings_ToLower Doubles.controller
            (controller_Endpoint Doubles.controller) [])
         Doubles.ctx0 "good-code" "";
       EvGetAccessToken (WithAuthIntoContext "alice" Doubles.ctx0) "tok1" "ns1";
       EvStore (WithAuthIntoContext "alice" Doubles.ctx0) (mkSPIAccessToken "tok1" "ns1")
         (apiToken_of Doubles.provider_token);
       EvAudit "OAuth authentication completed successfully" "tok1" "ns1"] /\
    sessions w' = sessions veiled_world.
Proof.
  apply (Callback_stores_and_redirects Doubles.NewCodec Doubles.provider_Exchange
           Doubles.strings_ToLower Doubles.redirect_Location Doubles.redirect_body
           Doubles.controller Doubles.ctx0 good_callback
           veiled_world Doubles.codec (mkExchangeState Doubles.tok1_state) "alice"
           Doubles.provider_token (mkSPIAccessToken "tok1" "ns1")).
  - vm_compute. discriminate.
  - reflexivity.
  - vm_compute. reflexivity.
  - vm_compute. reflexivity.
  - vm_compute. reflexivity.
  - vm_compute. reflexivity.
  - vm_compute. reflexivity.
  - reflexivity.
Defined.


Lemma Callback_keeps_sessions_witness :
  sessions after_callback = sessions veiled_world /\
  rand_Reader after_callback = rand_Reader veiled_world /\
  (forall ctx' r',
      fst <$> UnveilState ctx' r' after_callback = fst <$> UnveilState ctx' r' veiled_world).
Proof.
  apply (Callback_keeps_sessions Doubles.NewCodec Doubles.provider_Exchange
           Doubles.strings_ToLower Doubles.redirect_Location Doubles.redirect_body
           Doubles.controller Doubles.ctx0 good_callback).
  vm_compute. reflexivity.
Defined.

Lemma Authenticate_rejections_witness :
  rejected Doubles.NewCodec Doubles.AuthCodeURL Doubles.strings_ToLower Doubles.GroupVersion
    Doubles.controller (Doubles.request [("state", "signed.tok1.state")]) fresh_world
    StatusUnauthorized [] /\
  rejected Doubles.NewCodec Doubles.AuthCodeURL Doubles.strings_ToLower Doubles.GroupVersion
    Doubles.controller
    (Doubles.request [("state", "signed.tok1.state"); ("k8s_token", "mallory")])
    fresh_world StatusUnauthorized [KCreateReview].
Proof.
  split.
  - exact (Authenticate_rejections Doubles.NewCodec Doubles.AuthCodeURL
             Doubles.strings_ToLower Doubles.GroupVersion Doubles.controller
             (Doubles.request [("state", "signed.tok1.state")]) fresh_world eq_refl).
  - exact (Authenticate_rejections Doubles.NewCodec Doubles.AuthCodeURL
             Doubles.strings_ToLower Doubles.GroupVersion Doubles.controller
             (Doubles.request [("state", "signed.tok1.state"); ("k8s_token", "mallory")])
             fresh_world eq_refl eq_refl).
Defined.

Lemma Authenticate_gate_witness :
  event_kind <$> trace_since fresh_world
    (final (dbl_Authenticate Doubles.veil_request) fresh_world) ∈
    [[]; [KCreateReview]; [KCreateReview; KAudit]] /\
  (sessions (final (dbl_Authenticate Doubles.veil_request) fresh_world) <>
     sessions fresh_world \/
   rand_Reader (final (dbl_Authenticate Doubles.veil_request) fresh_world) <>
     rand_Reader fresh_world \/
   KAudit ∈ (event_kind <$> trace_since fresh_world
               (final (dbl_Authenticate Doubles.veil_request) fresh_world)) ->
   exists token state review,
     reaches_gate Doubles.NewCodec Doubles.controller Doubles.veil_request =
       Some (token, state) /\
     client_Create Doubles.client
       (WithAuthIntoContext token (req_Context Doubles.veil_request))
       (review_for Doubles.GroupVersion state) = (review, None) /\
     review_Allowed review = true).
Proof.
  apply (Authenticate_gate Doubles.NewCodec Doubles.AuthCodeURL Doubles.strings_ToLower
           Doubles.GroupVersion Doubles.controller Doubles.veil_request fresh_world).
  vm_compute. reflexivity.
Defined.


Lemma error_page_status_witness :
  exists w',
    dbl_CallbackErrorHandler Doubles.error_request (Doubles.world []) = Some (tt, w') /\
    resp_status (response w') = Some StatusOK.
Proof.
  apply (error_page_status (Some Doubles.error_page) Doubles.error_page
           Doubles.error_request (Doubles.world []) eq_refl eq_refl).
Defined.

Lemma upload_only_valid_witness :
  length (calls_since Doubles.upload_world
            (upload_final (dbl_HandleUpload (Doubles.upload_request "ns1" "secret"))
                          Doubles.upload_world)) <= 1 /\
  forall call,
    call ∈ calls_since Doubles.upload_world
             (upload_final (dbl_HandleUpload (Doubles.upload_request "ns1" "secret"))
                           Doubles.upload_world) ->
    call_name call <> "" /\ call_namespace call <> "" /\
    AccessToken (call_data call) <> "" /\
    mux_Vars (Doubles.upload_request "ns1" "secret") !! "name" = Some (call_name call) /\
    mux_Vars (Doubles.upload_request "ns1" "secret") !! "namespace" =
      Some (call_namespace call) /\
    Doubles.WithAuthFromRequestIntoContext
      (up_Request (Doubles.upload_request "ns1" "secret"))
      (req_Context (up_Request (Doubles.upload_request "ns1" "secret"))) =
      (call_ctx call, None) /\
    Doubles.json_Decode (Body (Doubles.upload_request "ns1" "secret")) (mkToken "" "" "" 0) =
      (call_data call, None).
Proof.
  apply (upload_only_valid Doubles.WithAuthFromRequestIntoContext Doubles.json_Decode
           Doubles.uploader (Doubles.upload_request "ns1" "secret") Doubles.upload_world).
  vm_compute. reflexivity.
Defined.

Lemma upload_status_witness :
  resp_status (response (up_world
    (upload_final (dbl_HandleUpload (Doubles.upload_request "ns1" "secret"))
                  Doubles.upload_world))) = Some StatusNoContent /\
  resp_status (response (up_world
    (upload_final (dbl_HandleUpload (Doubles.upload_request "locked" "secret"))
                  Doubles.upload_world))) = Some StatusInternalServerError.
Proof.
  split.
  - apply (upload_status Doubles.WithAuthFromRequestIntoContext Doubles.json_Decode
             Doubles.uploader (Doubles.upload_request "ns1" "secret") Doubles.upload_world
             _ ltac:(vm_compute; reflexivity) eq_refl).
    eexists. split; vm_compute; reflexivity.
  - eapply (upload_status Doubles.WithAuthFromRequestIntoContext Doubles.json_Decode
              Doubles.uploader (Doubles.upload_request "locked" "secret")
              Doubles.upload_world _ ltac:(vm_compute; reflexivity) eq_refl);
      vm_compute; reflexivity.
Defined.
